(** * Super Activity View daemon: a shallow embedding of
      [super_activity_daemon.py] and the properties of its tap detector,
      configuration loader, device classifier and device table. *)

From Stdlib Require Import ZArith QArith String List Bool Lia Lqa.
From stdpp Require Import base gmap strings list.
Import ListNotations.

Set Warnings "-register-all".

Local Open Scope Z_scope.
Local Open Scope string_scope.
Local Open Scope list_scope.

(** ** Constants of the evdev [ecodes] module (Linux input-event-codes.h) *)

Module ecodes.
Definition EV_KEY : Z := 1.
Definition EV_REL : Z := 2.
Definition REL_HWHEEL : Z := 6.
Definition REL_WHEEL : Z := 8.
Definition KEY_LEFTCTRL : Z := 29.
Definition KEY_A : Z := 30.
Definition KEY_SPACE : Z := 57.
Definition KEY_RIGHTCTRL : Z := 97.
Definition KEY_LEFTMETA : Z := 125.
Definition KEY_RIGHTMETA : Z := 126.
Definition BUS_VIRTUAL : Z := 6.
End ecodes.

(** ** Python values and exceptions *)

(** The exception classes the daemon names or can meet.  [KeyboardInterrupt]
    is the one class here that does not derive from [Exception]. *)
Inductive exn :=
| PermissionError
| FileNotFoundError
| OSError
| JSONDecodeError
| TypeError
| AttributeError
| UInputError
| KeyboardInterrupt.

(** [isinstance(e, OSError)]: what [except (PermissionError, OSError)] and
    [except (PermissionError, OSError, FileNotFoundError)] catch. *)
Definition is_OSError (e : exn) : bool :=
  match e with
  | PermissionError | FileNotFoundError | OSError => true
  | _ => false
  end.

(** [isinstance(e, Exception)]: what [except Exception] catches. *)
Definition is_Exception (e : exn) : bool :=
  match e with
  | KeyboardInterrupt => false
  | _ => true
  end.

(** What [except (PermissionError, json.JSONDecodeError)] catches. *)
Definition is_config_error (e : exn) : bool :=
  match e with
  | PermissionError | JSONDecodeError => true
  | _ => false
  end.

(** A Python float: a finite one is modelled by the rational it denotes. *)
Inductive pyfloat :=
| Finite (q : Q)
| PosInf
| NegInf
| NaN.

(** The values [json.load] produces. A dict is kept as its list of items. *)
Inductive pyval :=
| PNone
| PBool (b : bool)
| PInt (z : Z)
| PFloat (f : pyfloat)
| PStr (s : string)
| PList (l : list pyval)
| PDict (items : list (string * pyval)).

Definition Qltb (x y : Q) : bool := negb (Qle_bool y x).

(** [elapsed < v] for a finite float [elapsed]: an order comparison with a
    number, [TypeError] with anything else. *)
Definition py_lt (elapsed : Q) (v : pyval) : exn + bool :=
  match v with
  | PBool b => inr (Qltb elapsed (if b then 1 else 0)%Q)
  | PInt z => inr (Qltb elapsed (inject_Z z))
  | PFloat (Finite q) => inr (Qltb elapsed q)
  | PFloat PosInf => inr true
  | PFloat NegInf => inr false
  | PFloat NaN => inr false
  | PNone | PStr _ | PList _ | PDict _ => inl TypeError
  end.

(** The values the comparison accepts: [bool], [int] and [float]. *)
Definition is_number (v : pyval) : bool :=
  match v with
  | PBool _ | PInt _ | PFloat _ => true
  | _ => false
  end.

(** [d.get(key, default)] on the items of a dict. *)
Fixpoint dict_get (items : list (string * pyval)) (key : string) (default : pyval) : pyval :=
  match items with
  | [] => default
  | (k, v) :: rest => if String.eqb k key then v else dict_get rest key default
  end.

(** [config.get(key, default)]: only a dict has the method. *)
Definition py_get (config : pyval) (key : string) (default : pyval) : exn + pyval :=
  match config with
  | PDict items => inr (dict_get items key default)
  | _ => inl AttributeError
  end.

(** ** Input events, devices and the daemon's state *)

(** An [evdev.InputEvent]. *)
Record event := Event { ev_type : Z; ev_code : Z; ev_value : Z }.

(** An opened [evdev.InputDevice]: its cached name and bus type, and what
    the [capabilities()] query does (it raises or returns the map from
    event type to the codes the device declares). *)
Record device := Device {
  dev_path : string;
  dev_fd : nat;
  dev_name : string;
  dev_bustype : Z;
  dev_capabilities : exn + gmap Z (list Z) }.

(** The [UInput] object of the synthetic device. *)
Inductive uinput := UInput (name : string).

(** An asyncio task running [monitor_device] on a device. *)
Inductive task := MonitorTask (dev : device).

Record daemon := Daemon {
  super_pressed : bool;
  super_press_time : Q;
  other_key_pressed : bool;
  devices : gmap string device;
  device_tasks : gmap string task;
  ui : option uinput;
  tap_timeout : pyval;
  running : bool;
  SUPER_KEYS : gset Z;
  TRIGGER_KEYS : list Z }.

(** The lines the daemon prints. *)
Inductive message :=
| MsgUInputCreated
| MsgUInputFailed (e : exn)
| MsgUInputHint
| MsgConfigLoaded (path : string)
| MsgConfigValues (trigger injection timeout : pyval)
| MsgConfigError (path : string) (e : exn)
| MsgNoConfig
| MsgListening (trigger : pyval)
| MsgWillInject (injection : pyval)
| MsgTapTimeout (timeout : pyval)
| MsgSuperPressed (code : Z)
| MsgCleanTap (elapsed : Q)
| MsgReleaseIgnored (cause : string)
| MsgInteractionKey (code : Z)
| MsgInteractionScroll
| MsgTriggering
| MsgInjectFailed (e : exn)
| MsgHotplugAdded (dtype : string) (name path : string)
| MsgHotplugRemoved (path : string).

(** What a method does to the world outside the daemon object.
    [Await_trigger_activity_view] marks the call of the injector itself. *)
Inductive effect :=
| Print (m : message)
| Await_trigger_activity_view
| UiWrite (etype code value : Z)
| UiSyn
| Sleep (seconds : Q)
| OpenDevice (path : string)
| CloseDevice (dev : device)
| CreateTask (t : task)
| CancelTask (t : task).

(** ** A state, output and exception monad for the daemon's methods *)

Record result (A : Type) := Result {
  outcome : exn + A;
  post : daemon;
  out : list effect }.
Arguments Result {A}.
Arguments outcome {A}.
Arguments post {A}.
Arguments out {A}.

Definition M (A : Type) : Type := daemon -> result A.

Definition ret {A} (a : A) : M A := fun d => Result (inr a) d [].

Definition bind {A B} (m : M A) (k : A -> M B) : M B := fun d =>
  match m d with
  | Result (inl e) d' o => Result (inl e) d' o
  | Result (inr a) d' o =>
      match k a d' with
      | Result x d'' o' => Result x d'' (o ++ o')
      end
  end.

(** [try: body except <classes caught>: handler]. *)
Definition try_except {A} (body : M A) (caught : exn -> bool) (handler : exn -> M A) : M A :=
  fun d =>
  match body d with
  | Result (inl e) d' o =>
      if caught e
      then match handler e d' with
           | Result x d'' o' => Result x d'' (o ++ o')
           end
      else Result (inl e) d' o
  | Result (inr a) d' o => Result (inr a) d' o
  end.

Definition get : M daemon := fun d => Result (inr d) d [].
Definition modify (f : daemon -> daemon) : M unit := fun d => Result (inr tt) (f d) [].
Definition emit (e : effect) : M unit := fun d => Result (inr tt) d [e].
Definition print (m : message) : M unit := emit (Print m).
Definition lift {A} (x : exn + A) : M A := fun d => Result x d [].

(** The do-notation [x ← m; k] and [m;; k] of stdpp reads these. *)
#[export] Instance daemon_ret : MRet M := @ret.
#[export] Instance daemon_bind : MBind M := fun A B k m => bind m k.

(** Assignments to the attributes of [self]. *)
Definition set_super_pressed (b : bool) (d : daemon) : daemon :=
  Daemon b (super_press_time d) (other_key_pressed d) (devices d) (device_tasks d)
         (ui d) (tap_timeout d) (running d) (SUPER_KEYS d) (TRIGGER_KEYS d).
Definition set_super_press_time (t : Q) (d : daemon) : daemon :=
  Daemon (super_pressed d) t (other_key_pressed d) (devices d) (device_tasks d)
         (ui d) (tap_timeout d) (running d) (SUPER_KEYS d) (TRIGGER_KEYS d).
Definition set_other_key_pressed (b : bool) (d : daemon) : daemon :=
  Daemon (super_pressed d) (super_press_time d) b (devices d) (device_tasks d)
         (ui d) (tap_timeout d) (running d) (SUPER_KEYS d) (TRIGGER_KEYS d).
Definition set_devices (m : gmap string device) (d : daemon) : daemon :=
  Daemon (super_pressed d) (super_press_time d) (other_key_pressed d) m (device_tasks d)
         (ui d) (tap_timeout d) (running d) (SUPER_KEYS d) (TRIGGER_KEYS d).
Definition set_device_tasks (m : gmap string task) (d : daemon) : daemon :=
  Daemon (super_pressed d) (super_press_time d) (other_key_pressed d) (devices d) m
         (ui d) (tap_timeout d) (running d) (SUPER_KEYS d) (TRIGGER_KEYS d).
Definition set_ui (u : option uinput) (d : daemon) : daemon :=
  Daemon (super_pressed d) (super_press_time d) (other_key_pressed d) (devices d) (device_tasks d)
         u (tap_timeout d) (running d) (SUPER_KEYS d) (TRIGGER_KEYS d).
Definition set_tap_timeout (v : pyval) (d : daemon) : daemon :=
  Daemon (super_pressed d) (super_press_time d) (other_key_pressed d) (devices d) (device_tasks d)
         (ui d) v (running d) (SUPER_KEYS d) (TRIGGER_KEYS d).
Definition set_SUPER_KEYS (s : gset Z) (d : daemon) : daemon :=
  Daemon (super_pressed d) (super_press_time d) (other_key_pressed d) (devices d) (device_tasks d)
         (ui d) (tap_timeout d) (running d) s (TRIGGER_KEYS d).
Definition set_TRIGGER_KEYS (l : list Z) (d : daemon) : daemon :=
  Daemon (super_pressed d) (super_press_time d) (other_key_pressed d) (devices d) (device_tasks d)
         (ui d) (tap_timeout d) (running d) (SUPER_KEYS d) l.

(** ** The process environment

    Everything the daemon asks of the operating system at start-up and on
    hotplug: the expansion of the user's configuration path, the
    [SUDO_USER] variable, the listing of [/home], which paths exist, what
    opening and decoding a configuration file gives, and what creating the
    synthetic device and opening an input device give. *)
Record environment := Environment {
  expanded_user_path : string;
  SUDO_USER : option string;
  listdir_home : exn + list string;
  path_exists : string -> bool;
  load_json : string -> exn + pyval;
  create_UInput : exn + uinput;
  InputDevice : string -> exn + device }.

Definition SYSTEM_CONFIG_PATH : string := "/etc/super-activity-view/config.json".

Definition config_suffix : string := "/.config/super-activity-view/config.json".

(** [paths.append(x)] guarded by [if x not in paths]. *)
Definition append_if_new (paths : list string) (x : string) : list string :=
  if bool_decide (x ∈ paths) then paths else paths ++ [x].

Definition get_user_config_paths (env : environment) : exn + list string :=
  let paths := [] in
  let user_path := expanded_user_path env in
  let paths := if negb (String.prefix "/root" user_path) then paths ++ [user_path] else paths in
  let paths :=
    match SUDO_USER env with
    | Some sudo_user =>
        if negb (String.eqb sudo_user "")
        then paths ++ ["/home/" +:+ sudo_user +:+ config_suffix]
        else paths
    | None => paths
    end in
  match listdir_home env with
  | inr dirs =>
      inr (fold_left (fun ps user_dir => append_if_new ps ("/home/" +:+ user_dir +:+ config_suffix))
                     dirs paths)
  | inl e =>
      match e with
      | PermissionError | FileNotFoundError => inr paths
      | _ => inl e
      end
  end.

(** ** Key names *)

Definition KEY_MAP : gmap string Z :=
  <["KEY_LEFTMETA" := ecodes.KEY_LEFTMETA]>
  (<["KEY_RIGHTMETA" := ecodes.KEY_RIGHTMETA]>
  (<["KEY_LEFTCTRL" := ecodes.KEY_LEFTCTRL]>
  (<["KEY_RIGHTCTRL" := ecodes.KEY_RIGHTCTRL]> ∅))).

(** [KEY_MAP.get(key, default)]: a list or a dict is unhashable, any other
    value that is not one of the four names gives the default. *)
Definition KEY_MAP_get (key : pyval) (default : Z) : exn + Z :=
  match key with
  | PStr s => inr (match KEY_MAP !! s with Some code => code | None => default end)
  | PList _ | PDict _ => inl TypeError
  | PNone | PBool _ | PInt _ | PFloat _ => inr default
  end.

(** ** The daemon's methods *)

Definition DEFAULT_TAP_TIMEOUT : pyval := PFloat (Finite (1 # 2)).

(** The search of [load_config] for the file to read: the first of the
    user paths, then the system path, that exists. *)
Definition find_config_path (env : environment) : exn + option string :=
  match get_user_config_paths env with
  | inl e => inl e
  | inr user_paths =>
      let search_paths := user_paths ++ [SYSTEM_CONFIG_PATH] in
      inr (find (path_exists env) search_paths)
  end.

Definition load_config (env : environment) : M unit :=
  let trigger_key := PStr "KEY_LEFTMETA" in
  let injection_key := PStr "KEY_LEFTCTRL" in
  config_path ← lift (find_config_path env);
  keys ←
    match config_path with
    | Some path =>
        if negb (String.eqb path "") then
          try_except
            (config ← lift (load_json env path);
             trigger_key ← lift (py_get config "trigger_key" trigger_key);
             injection_key ← lift (py_get config "injection_key" injection_key);
             timeout ← lift (py_get config "tap_timeout" DEFAULT_TAP_TIMEOUT);
             modify (set_tap_timeout timeout);;
             print (MsgConfigLoaded path);;
             print (MsgConfigValues trigger_key injection_key timeout);;
             mret (trigger_key, injection_key))
            is_config_error
            (fun e => print (MsgConfigError path e);; mret (trigger_key, injection_key))
        else print MsgNoConfig;; mret (trigger_key, injection_key)
    | None => print MsgNoConfig;; mret (trigger_key, injection_key)
    end;
  let trigger_key := fst keys in
  let injection_key := snd keys in
  super ← lift (KEY_MAP_get trigger_key ecodes.KEY_LEFTMETA);
  modify (set_SUPER_KEYS {[ super ]});;
  inject ← lift (KEY_MAP_get injection_key ecodes.KEY_LEFTCTRL);
  modify (set_TRIGGER_KEYS [inject]);;
  self ← get;
  print (MsgListening trigger_key);;
  print (MsgWillInject injection_key);;
  print (MsgTapTimeout (tap_timeout self)).

(** The attributes [__init__] assigns before it calls [load_config]. *)
Definition fresh_daemon : daemon :=
  Daemon false 0%Q false ∅ ∅ None DEFAULT_TAP_TIMEOUT false ∅ [].

(** [SuperActivityDaemon()]: the constructor [__init__]. *)
Definition init (env : environment) : result unit :=
  (load_config env;;
   try_except
     (u ← lift (create_UInput env);
      modify (set_ui (Some u));;
      print MsgUInputCreated)
     is_Exception
     (fun e => print (MsgUInputFailed e);; print MsgUInputHint)) fresh_daemon.

(** [needle in hay] on Python strings: [needle] occurs as a substring. *)
Fixpoint str_contains (needle hay : string) : bool :=
  String.prefix needle hay ||
  match hay with
  | EmptyString => false
  | String _ rest => str_contains needle rest
  end.

Definition OWN_DEVICE_NAME : string := "Super Activity Daemon".
Definition PROXY_DEVICE_NAME : string := "Tiling Shell Proxy Device".

(** [code in caps[etype]], false when [etype] is not a key of [caps]. *)
Definition declares (caps : gmap Z (list Z)) (etype code : Z) : bool :=
  match caps !! etype with
  | Some codes => bool_decide (code ∈ codes)
  | None => false
  end.

(** [etype in caps]. *)
Definition has_type (caps : gmap Z (list Z)) (etype : Z) : bool :=
  bool_decide (is_Some (caps !! etype)).

Definition is_valid_device (device : device) : M bool :=
  try_except
    (let name := dev_name device in
     if String.eqb name OWN_DEVICE_NAME then mret false
     else if str_contains PROXY_DEVICE_NAME name then mret false
     else if (dev_bustype device =? 6)%Z then mret false
     else
       caps ← lift (dev_capabilities device);
       let is_keyboard :=
         if has_type caps ecodes.EV_KEY
         then declares caps ecodes.EV_KEY ecodes.KEY_A
              && declares caps ecodes.EV_KEY ecodes.KEY_SPACE
         else false in
       let is_mouse := has_type caps ecodes.EV_REL in
       mret (is_keyboard || is_mouse))
    is_OSError
    (fun _ => mret false).

Definition get_device_type (device : device) : M string :=
  try_except
    (caps ← lift (dev_capabilities device);
     let is_keyboard := has_type caps ecodes.EV_KEY && declares caps ecodes.EV_KEY ecodes.KEY_A in
     let is_mouse := has_type caps ecodes.EV_REL in
     if is_keyboard && is_mouse then mret "Combo"
     else if is_keyboard then mret "Keyboard"
     else mret "Mouse/Other")
    (fun _ => true)
    (fun _ => mret "Unknown").

(** The calls [trigger_activity_view] makes on the synthetic device, in order,
    with the pause between the presses and the releases. *)
Definition injection_calls (keys : list Z) : list effect :=
  map (fun key => UiWrite ecodes.EV_KEY key 1) keys ++ [UiSyn]
  ++ [Sleep (5 # 100)]
  ++ map (fun key => UiWrite ecodes.EV_KEY key 0) (rev keys) ++ [UiSyn].

(** Performs the calls in order.  [write_error] is what the synthetic device
    does during this injection: [Some n] when its call number [n] (from 0,
    writes and barriers counted) raises [OSError], [None] when none does. *)
Fixpoint perform (write_error : option nat) (calls : list effect) : M unit :=
  match calls with
  | [] => mret tt
  | Sleep s :: rest => emit (Sleep s);; perform write_error rest
  | call :: rest =>
      match write_error with
      | Some O => lift (inl OSError)
      | Some (S n) => emit call;; perform (Some n) rest
      | None => emit call;; perform None rest
      end
  end.

Definition trigger_activity_view (write_error : option nat) : M unit :=
  emit Await_trigger_activity_view;;
  self ← get;
  match ui self with
  | None => mret tt
  | Some _ =>
      print MsgTriggering;;
      try_except
        (perform write_error (injection_calls (TRIGGER_KEYS self)))
        is_OSError
        (fun e => print (MsgInjectFailed e))
  end.

(** [handle_event(event)].  [now] is what [time.time()] returns during the
    call and [write_error] what the synthetic device does if the call
    injects.  The call is taken as one step: no other event is handled
    while the injection sleeps. *)
Definition handle_event (now : Q) (write_error : option nat) (event : event) : M unit :=
  self ← get;
  if (ev_type event =? ecodes.EV_KEY)%Z then
    let key_code := ev_code event in
    let key_state := ev_value event in
    if bool_decide (key_code ∈ SUPER_KEYS self) then
      if (key_state =? 1)%Z then
        modify (set_super_pressed true);;
        modify (set_super_press_time now);;
        modify (set_other_key_pressed false);;
        print (MsgSuperPressed key_code)
      else if (key_state =? 0)%Z then
        if super_pressed self then
          let elapsed := (now - super_press_time self)%Q in
          clean ← (if negb (other_key_pressed self)
                   then lift (py_lt elapsed (tap_timeout self))
                   else mret false);
          (if clean : bool then
             print (MsgCleanTap elapsed);;
             trigger_activity_view write_error
           else
             let cause := if other_key_pressed self then "other action" else "held too long" in
             print (MsgReleaseIgnored cause));;
          modify (set_super_pressed false);;
          modify (set_other_key_pressed false)
        else mret tt
      else mret tt
    else if super_pressed self then
      if (key_state =? 1)%Z then
        print (MsgInteractionKey key_code);;
        modify (set_other_key_pressed true)
      else mret tt
    else mret tt
  else if (ev_type event =? ecodes.EV_REL)%Z && super_pressed self then
    if bool_decide (ev_code event ∈ [ecodes.REL_WHEEL; ecodes.REL_HWHEEL]) then
      if negb (ev_value event =? 0)%Z then
        print MsgInteractionScroll;;
        modify (set_other_key_pressed true)
      else mret tt
    else mret tt
  else mret tt.

Definition add_device (env : environment) (path : string) : M unit :=
  self ← get;
  match devices self !! path with
  | Some _ => mret tt
  | None =>
      try_except
        (emit (OpenDevice path);;
         device ← lift (InputDevice env path);
         valid ← is_valid_device device;
         if valid : bool then
           modify (fun self => set_devices (<[path := device]> (devices self)) self);;
           let task := MonitorTask device in
           emit (CreateTask task);;
           modify (fun self => set_device_tasks (<[path := task]> (device_tasks self)) self);;
           dtype ← get_device_type device;
           print (MsgHotplugAdded dtype (dev_name device) path)
         else emit (CloseDevice device))
        is_OSError
        (fun _ => mret tt)
  end.

Definition remove_device (path : string) : M unit :=
  self ← get;
  match device_tasks self !! path with
  | Some task =>
      emit (CancelTask task);;
      modify (fun self => set_device_tasks (delete path (device_tasks self)) self)
  | None => mret tt
  end;;
  self ← get;
  match devices self !! path with
  | Some device =>
      emit (CloseDevice device);;
      modify (fun self => set_devices (delete path (devices self)) self);;
      print (MsgHotplugRemoved path)
  | None => mret tt
  end.

(** ** Event streams *)

(** One event as the daemon meets it: the event, the reading of
    [time.time()] while it is handled, and the behaviour of the synthetic
    device should this event inject. *)
Record stimulus := Stimulus {
  now : Q;
  write_error : option nat;
  occurring : event }.

Definition handle (s : stimulus) : M unit :=
  handle_event (now s) (write_error s) (occurring s).

(** The daemon object after a stream of events, each handled in turn.  An
    exception ends the monitor task that met it; the object stays as the
    failed call left it and serves the events that follow. *)
Definition after (d : daemon) (stream : list stimulus) : daemon :=
  fold_left (fun d s => post (handle s d)) stream d.

(** Everything done to the outside world while the stream is handled. *)
Fixpoint effects (d : daemon) (stream : list stimulus) : list effect :=
  match stream with
  | [] => []
  | s :: rest => out (handle s d) ++ effects (post (handle s d)) rest
  end.

Definition is_await (e : effect) : bool :=
  match e with
  | Await_trigger_activity_view => true
  | _ => false
  end.

(** Handling [s] in state [d] invokes the injector. *)
Definition fires (s : stimulus) (d : daemon) : bool :=
  existsb is_await (out (handle s d)).

(** ** The vocabulary of the specification *)

(** A press (value 1) of the trigger key. *)
Definition trigger_press (keys : gset Z) (e : event) : bool :=
  (ev_type e =? ecodes.EV_KEY)%Z && bool_decide (ev_code e ∈ keys) && (ev_value e =? 1)%Z.

(** A release (value 0) of the trigger key. *)
Definition trigger_release (keys : gset Z) (e : event) : bool :=
  (ev_type e =? ecodes.EV_KEY)%Z && bool_decide (ev_code e ∈ keys) && (ev_value e =? 0)%Z.

(** An auto-repeat (value 2) of the trigger key. *)
Definition trigger_repeat (keys : gset Z) (e : event) : bool :=
  (ev_type e =? ecodes.EV_KEY)%Z && bool_decide (ev_code e ∈ keys) && (ev_value e =? 2)%Z.

(** Interference: the press of any other key or button, or a wheel event
    (vertical or horizontal) with a delta that is not zero. *)
Definition interfering (keys : gset Z) (e : event) : bool :=
  ((ev_type e =? ecodes.EV_KEY)%Z && negb (bool_decide (ev_code e ∈ keys)) && (ev_value e =? 1)%Z)
  || ((ev_type e =? ecodes.EV_REL)%Z
      && ((ev_code e =? ecodes.REL_WHEEL)%Z || (ev_code e =? ecodes.REL_HWHEEL)%Z)
      && negb (ev_value e =? 0)%Z).



(** The detector is in [TriggerDown] when [super_pressed] is set, in [Idle]
    otherwise; both flags cleared is the state a release leaves. *)
Definition to_idle (d : daemon) : daemon :=
  set_other_key_pressed false (set_super_pressed false d).

Definition start_session (t : Q) (d : daemon) : daemon :=
  set_other_key_pressed false (set_super_press_time t (set_super_pressed true d)).


(** ** Wall clock and monotonic clock *)




(** The number of times the injector is invoked. *)
Definition injections (trace : list effect) : nat :=
  length (filter (fun e => is_await e = true) trace).

(** The calls that reach the synthetic device. *)
Definition is_ui_call (e : effect) : bool :=
  match e with
  | UiWrite _ _ _ | UiSyn => true
  | _ => false
  end.




(** ** Sample values *)

(** The daemon as the default configuration leaves it, the synthetic device
    created. *)
Definition default_daemon : daemon :=
  Daemon false 0%Q false ∅ ∅ (Some (UInput OWN_DEVICE_NAME)) DEFAULT_TAP_TIMEOUT false
         {[ ecodes.KEY_LEFTMETA ]} [ecodes.KEY_LEFTCTRL].

Definition alice_config : string := "/home/alice/.config/super-activity-view/config.json".

(** A machine with one user, whose configuration file decodes to [config];
    the synthetic device can be created and no input device can be opened. *)
Definition machine (config : exn + pyval) (uinput : exn + uinput) : environment :=
  Environment alice_config None (inr ["alice"]) (String.eqb alice_config)
              (fun _ => config) uinput (fun _ => inl FileNotFoundError).

Definition key (code value : Z) : event := Event ecodes.EV_KEY code value.
Definition super_down : event := key ecodes.KEY_LEFTMETA 1.
Definition super_up : event := key ecodes.KEY_LEFTMETA 0.
Definition super_repeat : event := key ecodes.KEY_LEFTMETA 2.



(** ** The vocabulary of the device classifier and the device table *)

(** [needle] occurs in [hay]. *)
Definition occurs_in (needle hay : string) : Prop :=
  exists before rest, hay = before +:+ needle +:+ rest.

(** The capability set holds a letter key, [KEY_A], and the space key. *)
Definition keyboard_like (caps : gmap Z (list Z)) : Prop :=
  exists keys, caps !! ecodes.EV_KEY = Some keys
               /\ ecodes.KEY_A ∈ keys /\ ecodes.KEY_SPACE ∈ keys.

(** The capability set holds relative motion. *)
Definition pointer_like (caps : gmap Z (list Z)) : Prop :=
  is_Some (caps !! ecodes.EV_REL).

(** The reasons to reject a device: it is the daemon's own, it is the
    conflicting proxy, it sits on the virtual bus, or asking for its
    capabilities raises a permission or I/O error. *)
Definition rejected (dev : device) : Prop :=
  dev_name dev = OWN_DEVICE_NAME
  \/ occurs_in PROXY_DEVICE_NAME (dev_name dev)
  \/ dev_bustype dev = ecodes.BUS_VIRTUAL
  \/ exists e, dev_capabilities dev = inl e /\ is_OSError e = true.

(** The number of entries the table holds for an identifier. *)
Definition entries {V} (path : string) (table : gmap string V) : nat :=
  length (filter (fun kv => kv.1 = path) (map_to_list table)).

(** A keyboard on the USB bus, a mouse, and a device that is neither. *)
Definition usb_keyboard : device :=
  Device "/dev/input/event3" 7 "USB Keyboard" 3
         (inr {[ ecodes.EV_KEY := [ecodes.KEY_A; ecodes.KEY_SPACE; ecodes.KEY_LEFTMETA] ]}).

Definition usb_mouse : device :=
  Device "/dev/input/event4" 8 "USB Mouse" 3
         (inr (<[ ecodes.EV_REL := [0; 1; ecodes.REL_WHEEL] ]>
                 {[ ecodes.EV_KEY := [272; 273] ]})).

Definition power_button : device :=
  Device "/dev/input/event0" 9 "Power Button" 25 (inr {[ ecodes.EV_KEY := [116] ]}).

(** A machine on which [/dev/input/event3] opens as the keyboard,
    [/dev/input/event0] as the power button, and nothing else opens. *)
Definition desk : environment :=
  Environment alice_config None (inr ["alice"]) (fun _ => false)
              (fun _ => inl FileNotFoundError) (inr (UInput OWN_DEVICE_NAME))
              (fun path => if String.eqb path "/dev/input/event3" then inr usb_keyboard
                           else if String.eqb path "/dev/input/event0" then inr power_button
                           else inl FileNotFoundError).

(** The table after a device has been added under [path]. *)
Definition with_device (path : string) (dev : device) (d : daemon) : daemon :=
  set_device_tasks (<[path := MonitorTask dev]> (device_tasks (set_devices (<[path := dev]> (devices d)) d)))
                   (set_devices (<[path := dev]> (devices d)) d).

(** Handling events never touches the configuration, the synthetic device
    or the device table. *)
Definition same_setup (d d' : daemon) : Prop :=
  SUPER_KEYS d' = SUPER_KEYS d /\ TRIGGER_KEYS d' = TRIGGER_KEYS d
  /\ tap_timeout d' = tap_timeout d /\ ui d' = ui d
  /\ devices d' = devices d /\ device_tasks d' = device_tasks d.


(** ** The rest of the device lifecycle *)

(** The table entries under [path] deleted, as the clean-up of
    [monitor_device] does: [if path in d: del d[path]] for both tables. *)
Definition forget (path : string) (d : daemon) : daemon :=
  let d1 := match devices d !! path with
            | Some _ => set_devices (delete path (devices d)) d
            | None => d
            end in
  match device_tasks d1 !! path with
  | Some _ => set_device_tasks (delete path (device_tasks d1)) d1
  | None => d1
  end.

(** The lines only the device scan and the monitors print. *)
Inductive lifecycle_effect :=
| Core (e : effect)
| PrintFound (dtype name path : string)
| PrintDisconnected (name path : string).

(** What takes control out of a coroutine: an exception or the
    cancellation of its task. *)
Inductive interruption :=
| Raised (e : exn)
| Cancelled.

Record lifecycle (A : Type) := Lifecycle {
  ended : interruption + A;
  left_daemon : daemon;
  did : list lifecycle_effect }.
Arguments Lifecycle {A}.
Arguments ended {A}.
Arguments left_daemon {A}.
Arguments did {A}.

(** The loop [async for event in device.async_read_loop(): await
    self.handle_event(event)] over the events the device delivers: it stops
    at the first call that raises. *)
Fixpoint read_loop (stream : list stimulus) : M unit :=
  match stream with
  | [] => mret tt
  | s :: rest => handle s;; read_loop rest
  end.

(** [monitor_device(device)].  [stream] is what the device delivers and
    [ending] what then takes control out of the read loop: the [OSError] of
    a disconnect, another exception, or the cancellation of the task.  An
    exception of [handle_event] leaves the loop before that. *)
Definition monitor_device (device : device) (stream : list stimulus)
           (ending : interruption) (d : daemon) : lifecycle unit :=
  let path := dev_path device in
  let r := read_loop stream d in
  let leaving := match outcome r with
                 | inl e => Raised e
                 | inr _ => ending
                 end in
  let caught := match leaving with
                | Raised e => is_OSError e
                | Cancelled => false
                end in
  Lifecycle (if caught then inr tt else inl leaving)
            (forget path (post r))
            (map Core (out r)
             ++ (if caught then [PrintDisconnected (dev_name device) path] else [])
             ++ [Core (CloseDevice device)]).

(** [find_input_devices()], from the dict [input_devices] built so far, over
    the paths [evdev.list_devices()] gave that are still to visit. *)
Fixpoint scan_devices (env : environment) (paths : list string)
         (input_devices : gmap string device) (d : daemon)
  : lifecycle (gmap string device) :=
  match paths with
  | [] => Lifecycle (inr input_devices) d []
  | path :: rest =>
      let continue (found : gmap string device) (d' : daemon) (did_here : list lifecycle_effect) :=
        let r := scan_devices env rest found d' in
        Lifecycle (ended r) (left_daemon r) (did_here ++ did r) in
      let leave (e : exn) (found : gmap string device) (d' : daemon)
                (did_here : list lifecycle_effect) :=
        if is_OSError e then continue found d' did_here
        else Lifecycle (inl (Raised e)) d' did_here in
      match InputDevice env path with
      | inl e => leave e input_devices d [Core (OpenDevice path)]
      | inr device =>
          let v := is_valid_device device d in
          let did_v := Core (OpenDevice path) :: map Core (out v) in
          match outcome v with
          | inl e => leave e input_devices (post v) did_v
          | inr true =>
              let t := get_device_type device (post v) in
              match outcome t with
              | inl e => leave e (<[path := device]> input_devices) (post t)
                               (did_v ++ map Core (out t))
              | inr dtype =>
                  continue (<[path := device]> input_devices) (post t)
                           (did_v ++ map Core (out t)
                            ++ [PrintFound dtype (dev_name device) (dev_path device)])
              end
          | inr false => continue input_devices (post v) (did_v ++ [Core (CloseDevice device)])
          end
      end
  end.

Definition find_input_devices (env : environment) (listed : list string) (d : daemon)
  : lifecycle (gmap string device) :=
  scan_devices env listed ∅ d.

(** A notification of the udev monitor, [None] when the poll timed out. *)
Record notification := Notification {
  device_node : option string;
  action : string }.

(** One turn of the loop of [watch_devices_pyudev], after the poll.  The
    pause before an addition is taken as part of the step. *)
Definition watch_devices_pyudev_step (env : environment) (polled : option notification)
  : M unit :=
  match polled with
  | None => mret tt
  | Some device =>
      match device_node device with
      | Some node =>
          if negb (String.eqb node "") && String.prefix "/dev/input/event" node then
            if String.eqb (action device) "add" then
              emit (Sleep (1 # 2));;
              add_device env node
            else if String.eqb (action device) "remove" then
              remove_device node
            else mret tt
          else mret tt
      | None => mret tt
      end
  end.

(** [for path in paths: self.add_device(path)]. *)
Fixpoint add_devices (env : environment) (paths : list string) : M unit :=
  match paths with
  | [] => mret tt
  | path :: rest => add_device env path;; add_devices env rest
  end.

Definition DEVICE_SCAN_INTERVAL : Q := 5.

(** One turn of the loop of [watch_devices_poll]: [listed] is what
    [evdev.list_devices()] gives.  The new paths are visited in the order
    the set difference yields them. *)
Definition watch_devices_poll_step (env : environment) (listed : list string) : M unit :=
  emit (Sleep DEVICE_SCAN_INTERVAL);;
  self ← get;
  let current_paths : gset string := list_to_set listed in
  let monitored_paths : gset string := dom (devices self) in
  add_devices env (elements (current_paths ∖ monitored_paths)).

(** ** More vocabulary *)

(** Every monitored device has its monitor task and every task its device. *)
Definition aligned (d : daemon) : Prop :=
  forall path, device_tasks d !! path = MonitorTask <$> devices d !! path.

(** The state of the tap detector and everything [load_config] and
    [__init__] set up. *)
Definition same_detector (d d' : daemon) : Prop :=
  super_pressed d' = super_pressed d
  /\ super_press_time d' = super_press_time d
  /\ other_key_pressed d' = other_key_pressed d
  /\ tap_timeout d' = tap_timeout d
  /\ SUPER_KEYS d' = SUPER_KEYS d
  /\ TRIGGER_KEYS d' = TRIGGER_KEYS d
  /\ ui d' = ui d.


(** The daemon's environment opens each path as a device that carries it. *)
Definition paths_kept (env : environment) : Prop :=
  forall path dev, InputDevice env path = inr dev -> dev_path dev = path.

(** The calls made on the synthetic device among the effects. *)
Definition ui_calls (trace : list effect) : list effect :=
  filter (fun e => is_ui_call e = true) trace.

(** The device [add_device] would put in the table for a path that is not
    in it: the one the path opens as, if the classifier accepts it. *)
Definition admitted (env : environment) (d : daemon) (path : string) : option device :=
  match InputDevice env path with
  | inr dev =>
      match outcome (is_valid_device dev d) with
      | inr true => Some dev
      | _ => None
      end
  | inl _ => None
  end.

(** Opening the paths and querying the devices they open as raise nothing
    but permission and I/O errors. *)
Definition tame (env : environment) (paths : list string) : Prop :=
  forall path, path ∈ paths ->
    match InputDevice env path with
    | inl e => is_OSError e = true
    | inr dev => forall e, dev_capabilities dev = inl e -> is_OSError e = true
    end.

(** The dict a scan builds: each path in turn is given the device the
    classifier accepts for it. *)
Definition accepted_of (env : environment) (d : daemon) (paths : list string)
           (found : gmap string device) : gmap string device :=
  fold_left (fun acc path => match admitted env d path with
                             | Some dev => <[path := dev]> acc
                             | None => acc
                             end) paths found.

(** * Properties *)

(** ** Arithmetic of the comparison *)






Lemma py_lt_not_number (elapsed : Q) (timeout : pyval) :
  is_number timeout = false -> py_lt elapsed timeout = inl TypeError.
Proof.
  destruct timeout as [ | b | z | [q | | | ] | s | l | items]; simpl;
    intros [=]; reflexivity.
Qed.

(** ** The injector leaves the daemon alone *)

Ltac unfold_monad :=
  unfold mbind, daemon_bind, bind, mret, daemon_ret, ret, get, modify, print, emit, lift.

Lemma emit_then (c : effect) (m : M unit) (d : daemon) :
  (emit c;; m) d = Result (outcome (m d)) (post (m d)) (c :: out (m d)).
Proof.
  unfold mbind, daemon_bind, bind, emit. destruct (m d); reflexivity.
Qed.

Lemma perform_step (w : option nat) (c : effect) (rest : list effect) (d : daemon) :
  perform w (c :: rest) d = Result (inl OSError) d []
  \/ exists w', perform w (c :: rest) d
               = Result (outcome (perform w' rest d)) (post (perform w' rest d))
                        (c :: out (perform w' rest d)).
Proof.
  destruct c, w as [[|n]|]; cbn [perform]; rewrite ?emit_then; eauto.
Qed.

Lemma perform_post (w : option nat) (calls : list effect) (d : daemon) :
  post (perform w calls d) = d.
Proof.
  revert w; induction calls as [|c rest IH]; intros w; [reflexivity|].
  destruct (perform_step w c rest d) as [E|[w' E]]; rewrite E; [reflexivity | apply IH].
Qed.

Lemma perform_outcome (w : option nat) (calls : list effect) (d : daemon) :
  outcome (perform w calls d) = inr tt \/ outcome (perform w calls d) = inl OSError.
Proof.
  revert w; induction calls as [|c rest IH]; intros w; [left; reflexivity|].
  destruct (perform_step w c rest d) as [E|[w' E]]; rewrite E; [auto | apply IH].
Qed.

(** The injector, call by call: what it does with and without the
    synthetic device. *)
Lemma trigger_activity_view_disabled (w : option nat) (d : daemon) :
  ui d = None ->
  trigger_activity_view w d = Result (inr tt) d [Await_trigger_activity_view].
Proof.
  intros H. unfold trigger_activity_view. unfold_monad. cbn. rewrite H. reflexivity.
Qed.

Lemma trigger_activity_view_enabled (w : option nat) (d : daemon) (u : uinput) :
  ui d = Some u ->
  exists tail,
    trigger_activity_view w d
    = Result (inr tt) d
        (Await_trigger_activity_view :: Print MsgTriggering
         :: out (perform w (injection_calls (TRIGGER_KEYS d)) d) ++ tail)
    /\ (tail = [] \/ tail = [Print (MsgInjectFailed OSError)]).
Proof.
  intros H. unfold trigger_activity_view. unfold_monad. cbn. rewrite H. cbn.
  unfold try_except.
  pose proof (perform_post w (injection_calls (TRIGGER_KEYS d)) d) as Hp.
  destruct (perform_outcome w (injection_calls (TRIGGER_KEYS d)) d) as [Ho|Ho];
    destruct (perform w (injection_calls (TRIGGER_KEYS d)) d) as [r p o];
    cbn in Hp, Ho; subst p r; cbn.
  - exists []. rewrite app_nil_r. auto.
  - exists [Print (MsgInjectFailed OSError)]. auto.
Qed.

Lemma trigger_activity_view_outcome (w : option nat) (d : daemon) :
  outcome (trigger_activity_view w d) = inr tt.
Proof.
  destruct (ui d) as [u|] eqn:H.
  - destruct (trigger_activity_view_enabled w d u H) as (tail & -> & _). reflexivity.
  - rewrite (trigger_activity_view_disabled w d H). reflexivity.
Qed.

Lemma trigger_activity_view_post (w : option nat) (d : daemon) :
  post (trigger_activity_view w d) = d.
Proof.
  destruct (ui d) as [u|] eqn:H.
  - destruct (trigger_activity_view_enabled w d u H) as (tail & -> & _). reflexivity.
  - rewrite (trigger_activity_view_disabled w d H). reflexivity.
Qed.

(** ** One event at a time: what [handle_event] does in each case *)

Lemma trigger_press_inv (keys : gset Z) (e : event) :
  trigger_press keys e = true ->
  (ev_type e =? ecodes.EV_KEY)%Z = true /\ bool_decide (ev_code e ∈ keys) = true
  /\ (ev_value e =? 1)%Z = true.
Proof.
  unfold trigger_press. rewrite !andb_true_iff. tauto.
Qed.

Lemma trigger_release_inv (keys : gset Z) (e : event) :
  trigger_release keys e = true ->
  (ev_type e =? ecodes.EV_KEY)%Z = true /\ bool_decide (ev_code e ∈ keys) = true
  /\ (ev_value e =? 0)%Z = true /\ (ev_value e =? 1)%Z = false.
Proof.
  unfold trigger_release. rewrite !andb_true_iff. intros [[H1 H2] H3].
  repeat split; try assumption.
  apply Z.eqb_eq in H3. rewrite H3. reflexivity.
Qed.

Lemma handle_press (s : stimulus) (d : daemon) :
  trigger_press (SUPER_KEYS d) (occurring s) = true ->
  handle s d = Result (inr tt) (start_session (now s) d)
                      [Print (MsgSuperPressed (ev_code (occurring s)))].
Proof.
  intros (Ht & Hk & Hv)%trigger_press_inv.
  unfold handle, handle_event. unfold_monad. simpl.
  rewrite Ht, Hk, Hv. reflexivity.
Qed.

Lemma handle_release_idle (s : stimulus) (d : daemon) :
  trigger_release (SUPER_KEYS d) (occurring s) = true ->
  super_pressed d = false ->
  handle s d = Result (inr tt) d [].
Proof.
  intros (Ht & Hk & Hv & Hv1)%trigger_release_inv Hidle.
  unfold handle, handle_event. unfold_monad. simpl.
  rewrite Ht, Hk, Hv, Hv1, Hidle. reflexivity.
Qed.

Lemma handle_release_interfered (s : stimulus) (d : daemon) :
  trigger_release (SUPER_KEYS d) (occurring s) = true ->
  super_pressed d = true ->
  other_key_pressed d = true ->
  handle s d = Result (inr tt) (to_idle d) [Print (MsgReleaseIgnored "other action")].
Proof.
  intros (Ht & Hk & Hv & Hv1)%trigger_release_inv Hdown Hother.
  unfold handle, handle_event. unfold_monad. simpl.
  rewrite Ht, Hk, Hv, Hv1, Hdown, Hother. reflexivity.
Qed.

Lemma handle_release_raises (s : stimulus) (d : daemon) (e : exn) :
  trigger_release (SUPER_KEYS d) (occurring s) = true ->
  super_pressed d = true ->
  other_key_pressed d = false ->
  py_lt (now s - super_press_time d) (tap_timeout d) = inl e ->
  handle s d = Result (inl e) d [].
Proof.
  intros (Ht & Hk & Hv & Hv1)%trigger_release_inv Hdown Hother Hlt.
  unfold handle, handle_event. unfold_monad. simpl.
  rewrite Ht, Hk, Hv, Hv1, Hdown, Hother. simpl. rewrite Hlt. reflexivity.
Qed.

Lemma handle_release_late (s : stimulus) (d : daemon) :
  trigger_release (SUPER_KEYS d) (occurring s) = true ->
  super_pressed d = true ->
  other_key_pressed d = false ->
  py_lt (now s - super_press_time d) (tap_timeout d) = inr false ->
  handle s d = Result (inr tt) (to_idle d) [Print (MsgReleaseIgnored "held too long")].
Proof.
  intros (Ht & Hk & Hv & Hv1)%trigger_release_inv Hdown Hother Hlt.
  unfold handle, handle_event. unfold_monad. simpl.
  rewrite Ht, Hk, Hv, Hv1, Hdown, Hother. simpl. rewrite Hlt. reflexivity.
Qed.

Lemma handle_release_tap (s : stimulus) (d : daemon) :
  trigger_release (SUPER_KEYS d) (occurring s) = true ->
  super_pressed d = true ->
  other_key_pressed d = false ->
  py_lt (now s - super_press_time d) (tap_timeout d) = inr true ->
  handle s d = Result (inr tt) (to_idle d)
                 (Print (MsgCleanTap (now s - super_press_time d))
                  :: out (trigger_activity_view (write_error s) d)).
Proof.
  intros (Ht & Hk & Hv & Hv1)%trigger_release_inv Hdown Hother Hlt.
  pose proof (trigger_activity_view_post (write_error s) d) as Hp.
  pose proof (trigger_activity_view_outcome (write_error s) d) as Ho.
  unfold handle, handle_event.
  revert Hp Ho. generalize (trigger_activity_view (write_error s)) as inject.
  intros inject Hp Ho. unfold_monad. simpl.
  rewrite Ht, Hk, Hv, Hv1, Hdown, Hother. simpl. rewrite Hlt. simpl.
  destruct (inject d) as [r p o]; simpl in *; subst p r. simpl.
  rewrite app_nil_r. reflexivity.
Qed.

Lemma wheel_code (c : Z) :
  bool_decide (c ∈ [ecodes.REL_WHEEL; ecodes.REL_HWHEEL])
  = ((c =? ecodes.REL_WHEEL)%Z || (c =? ecodes.REL_HWHEEL)%Z).
Proof.
  destruct (c =? ecodes.REL_WHEEL)%Z eqn:E1; simpl.
  - apply Z.eqb_eq in E1. subst c. apply bool_decide_eq_true. apply list_elem_of_here.
  - destruct (c =? ecodes.REL_HWHEEL)%Z eqn:E2.
    + apply Z.eqb_eq in E2. subst c. apply bool_decide_eq_true.
      apply list_elem_of_further, list_elem_of_here.
    + apply Z.eqb_neq in E1, E2. apply bool_decide_eq_false.
      rewrite !elem_of_cons, elem_of_nil. tauto.
Qed.

Lemma handle_interference (s : stimulus) (d : daemon) :
  interfering (SUPER_KEYS d) (occurring s) = true ->
  super_pressed d = true ->
  exists m, handle s d = Result (inr tt) (set_other_key_pressed true d) [Print m].
Proof.
  intros Hi Hdown. unfold interfering in Hi.
  unfold handle, handle_event. unfold_monad. simpl.
  rewrite wheel_code, Hdown.
  destruct (ev_type (occurring s) =? ecodes.EV_KEY)%Z eqn:Et.
  - pose proof Et as Et'. apply Z.eqb_eq in Et'. rewrite Et' in Hi. simpl in Hi.
    rewrite orb_false_r in Hi.
    apply andb_true_iff in Hi as [Hk Hv].
    apply negb_true_iff in Hk. rewrite Hk, Hv. eexists; reflexivity.
  - simpl in Hi.
    apply andb_true_iff in Hi as [Hi Hv]. apply andb_true_iff in Hi as [Hr Hc].
    rewrite Hr, Hc, Hv. simpl. eexists; reflexivity.
Qed.

Lemma handle_ignored (s : stimulus) (d : daemon) :
  trigger_press (SUPER_KEYS d) (occurring s) = false ->
  trigger_release (SUPER_KEYS d) (occurring s) = false ->
  interfering (SUPER_KEYS d) (occurring s) = false \/ super_pressed d = false ->
  handle s d = Result (inr tt) d [].
Proof.
  unfold trigger_press, trigger_release, interfering.
  unfold handle, handle_event. unfold_monad. simpl.
  rewrite wheel_code.
  destruct (ev_type (occurring s) =? ecodes.EV_KEY)%Z eqn:Et;
    destruct (bool_decide (ev_code (occurring s) ∈ SUPER_KEYS d)) eqn:Ek;
    destruct (ev_value (occurring s) =? 1)%Z eqn:Ev1;
    destruct (ev_value (occurring s) =? 0)%Z eqn:Ev0;
    destruct (super_pressed d) eqn:Ed;
    destruct (ev_type (occurring s) =? ecodes.EV_REL)%Z eqn:Er;
    destruct ((ev_code (occurring s) =? ecodes.REL_WHEEL)%Z
              || (ev_code (occurring s) =? ecodes.REL_HWHEEL)%Z) eqn:Ew;
    simpl; intros Hp Hr [Hi|Hi]; try discriminate; try reflexivity.
Qed.

(** Whatever the event, the call leaves the daemon in one of four states,
    and only a press of the trigger key starts a session. *)
Lemma handle_post_cases (s : stimulus) (d : daemon) :
  (trigger_press (SUPER_KEYS d) (occurring s) = true
   /\ post (handle s d) = start_session (now s) d)
  \/ (trigger_press (SUPER_KEYS d) (occurring s) = false
      /\ (post (handle s d) = d
          \/ post (handle s d) = to_idle d
          \/ post (handle s d) = set_other_key_pressed true d)).
Proof.
  destruct (trigger_press (SUPER_KEYS d) (occurring s)) eqn:Hp.
  { rewrite (handle_press s d Hp). auto. }
  right. split; [reflexivity|].
  destruct (trigger_release (SUPER_KEYS d) (occurring s)) eqn:Hr.
  { destruct (super_pressed d) eqn:Hd.
    - destruct (other_key_pressed d) eqn:Ho.
      + rewrite (handle_release_interfered s d Hr Hd Ho). auto.
      + destruct (py_lt (now s - super_press_time d) (tap_timeout d)) as [e|[|]] eqn:Hlt.
        * rewrite (handle_release_raises s d e Hr Hd Ho Hlt). auto.
        * rewrite (handle_release_tap s d Hr Hd Ho Hlt). auto.
        * rewrite (handle_release_late s d Hr Hd Ho Hlt). auto.
    - rewrite (handle_release_idle s d Hr Hd). auto. }
  destruct (super_pressed d) eqn:Hd.
  - destruct (interfering (SUPER_KEYS d) (occurring s)) eqn:Hi.
    + destruct (handle_interference s d Hi Hd) as [m ->]. auto.
    + rewrite (handle_ignored s d Hp Hr (or_introl Hi)). auto.
  - rewrite (handle_ignored s d Hp Hr (or_intror Hd)). auto.
Qed.

Lemma handle_same_setup (s : stimulus) (d : daemon) : same_setup d (post (handle s d)).
Proof.
  destruct (handle_post_cases s d) as [[_ E]|[_ [E|[E|E]]]]; rewrite E;
    repeat split; reflexivity.
Qed.



Lemma await_in_trigger_activity_view (w : option nat) (d : daemon) :
  existsb is_await (out (trigger_activity_view w d)) = true.
Proof.
  destruct (ui d) as [u|] eqn:H.
  - destruct (trigger_activity_view_enabled w d u H) as (tail & -> & _). reflexivity.
  - rewrite (trigger_activity_view_disabled w d H). reflexivity.
Qed.

(** The decision taken at a release, read off the state it finds. *)
Lemma fires_iff_state (s : stimulus) (d : daemon) :
  trigger_release (SUPER_KEYS d) (occurring s) = true ->
  fires s d = true <->
  super_pressed d = true /\ other_key_pressed d = false
  /\ py_lt (now s - super_press_time d) (tap_timeout d) = inr true.
Proof.
  intros Hr. unfold fires.
  destruct (super_pressed d) eqn:Hd.
  - destruct (other_key_pressed d) eqn:Ho.
    + rewrite (handle_release_interfered s d Hr Hd Ho). simpl.
      split; [discriminate | intros (_ & H & _); discriminate].
    + destruct (py_lt (now s - super_press_time d) (tap_timeout d)) as [e|[|]] eqn:Hlt.
      * rewrite (handle_release_raises s d e Hr Hd Ho Hlt). simpl.
        split; [discriminate | intros (_ & _ & H); discriminate].
      * rewrite (handle_release_tap s d Hr Hd Ho Hlt). cbn [out existsb].
        rewrite await_in_trigger_activity_view. cbn [is_await orb]. tauto.
      * rewrite (handle_release_late s d Hr Hd Ho Hlt). simpl.
        split; [discriminate | intros (_ & _ & H); discriminate].
  - rewrite (handle_release_idle s d Hr Hd). simpl.
    split; [discriminate | intros (H & _); discriminate].
Qed.

(** ** The state the detector is in, read off the events handled so far *)






(** ** Sticky interference, auto-repeat and repeated presses *)


Lemma repeat_is_quiet (keys : gset Z) (e : event) :
  trigger_repeat keys e = true ->
  trigger_press keys e = false /\ trigger_release keys e = false
  /\ interfering keys e = false.
Proof.
  unfold trigger_repeat, trigger_press, trigger_release, interfering.
  rewrite !andb_true_iff. intros [[Ht Hk] Hv].
  apply Z.eqb_eq in Ht, Hv. rewrite Ht, Hk, Hv. auto.
Qed.





(** C5. An auto-repeat of the trigger key changes nothing: the press
    timestamp and both flags stay as they are and nothing is printed or
    injected.  And an event that starts a session, by taking the detector
    from [Idle] to [TriggerDown] or by recording another press timestamp, is
    a press (value 1) of the trigger key. *)
Theorem auto_repeat_ignored (s : stimulus) (d : daemon) :
  (trigger_repeat (SUPER_KEYS d) (occurring s) = true ->
   handle s d = Result (inr tt) d [])
  /\ (super_pressed d = false /\ super_pressed (post (handle s d)) = true
      \/ super_press_time (post (handle s d)) <> super_press_time d ->
      trigger_press (SUPER_KEYS d) (occurring s) = true).
Proof.
  split.
  - intros (Hp & Hr & Hi)%repeat_is_quiet.
    apply handle_ignored; auto.
  - intros H.
    destruct (handle_post_cases s d) as [[Hp _]|[_ [E|[E|E]]]]; [assumption| | |];
      rewrite E in H; exfalso; destruct H as [[H0 H1]|H]; simpl in *; congruence.
Qed.

Lemma auto_repeat_ignored_witness :
  let d := after default_daemon [Stimulus 0 None super_down] in
  let s := Stimulus (1 # 10) None super_repeat in
  trigger_repeat (SUPER_KEYS d) (occurring s) = true
  /\ handle s d = Result (inr tt) d []
  /\ super_press_time (post (handle s d)) = 0%Q
  /\ other_key_pressed (post (handle s d)) = false.
Proof.
  intros d s.
  assert (Hrep : trigger_repeat (SUPER_KEYS d) (occurring s) = true)
    by (vm_compute; reflexivity).
  pose proof (proj1 (auto_repeat_ignored s d) Hrep) as E.
  split; [assumption|]. split; [assumption|].
  rewrite E. split; reflexivity.
Defined.

(** C9. A press (value 1) of the trigger key handled while the detector is
    already in [TriggerDown] restarts the session: the press timestamp
    becomes the current time and the interference flag is cleared, exactly
    as the same press does from [Idle]. *)
Theorem repeated_press_restarts (s : stimulus) (d : daemon) :
  super_pressed d = true ->
  trigger_press (SUPER_KEYS d) (occurring s) = true ->
  super_pressed (post (handle s d)) = true
  /\ super_press_time (post (handle s d)) = now s
  /\ other_key_pressed (post (handle s d)) = false
  /\ handle s d = handle s (to_idle d).
Proof.
  intros _ Hp.
  assert (Hp' : trigger_press (SUPER_KEYS (to_idle d)) (occurring s) = true) by exact Hp.
  rewrite (handle_press s (to_idle d) Hp'), (handle_press s d Hp).
  repeat split.
Qed.

Lemma repeated_press_restarts_witness :
  let d := after default_daemon
             [Stimulus 0 None super_down; Stimulus (1 # 10) None (key ecodes.KEY_A 1)] in
  let s := Stimulus (2 # 10) None super_down in
  (super_pressed d = true /\ other_key_pressed d = true /\ super_press_time d = 0%Q)
  /\ super_pressed (post (handle s d)) = true
  /\ super_press_time (post (handle s d)) = (2 # 10)%Q
  /\ other_key_pressed (post (handle s d)) = false
  /\ handle s d = handle s (to_idle d).
Proof.
  intros d s.
  split; [vm_compute; repeat split; reflexivity|].
  apply (repeated_press_restarts s d); vm_compute; reflexivity.
Defined.

(** ** Which clock the detector reads *)

Lemma injections_app (a b : list effect) :
  injections (a ++ b) = (injections a + injections b)%nat.
Proof.
  unfold injections. rewrite filter_app, length_app. reflexivity.
Qed.

Lemma injections_cons (e : effect) (l : list effect) :
  injections (e :: l) = ((if is_await e then 1 else 0) + injections l)%nat.
Proof.
  unfold injections. cbn [filter list_filter].
  destruct (is_await e) eqn:E.
  - rewrite decide_True by reflexivity. reflexivity.
  - rewrite decide_False by discriminate. reflexivity.
Qed.

Lemma perform_injections (w : option nat) (calls : list effect) (d : daemon) :
  Forall (fun e => is_await e = false) calls ->
  injections (out (perform w calls d)) = 0%nat.
Proof.
  intros H. revert w. induction H as [|c rest Hc _ IH]; intros w; [reflexivity|].
  destruct (perform_step w c rest d) as [E|[w' E]]; rewrite E; [reflexivity|].
  cbn [out]. rewrite injections_cons, Hc. apply IH.
Qed.

Lemma injection_calls_no_await (keys : list Z) :
  Forall (fun e => is_await e = false) (injection_calls keys).
Proof.
  unfold injection_calls.
  repeat (apply Forall_app; split); try (repeat constructor);
    apply List.Forall_forall; intros e (k & <- & _)%in_map_iff; reflexivity.
Qed.

(** One call of the injector is one invocation of it. *)
Lemma trigger_activity_view_injections (w : option nat) (d : daemon) :
  injections (out (trigger_activity_view w d)) = 1%nat.
Proof.
  destruct (ui d) as [u|] eqn:H.
  - destruct (trigger_activity_view_enabled w d u H) as (tail & -> & Ht).
    cbn [out]. rewrite !injections_cons, injections_app.
    rewrite (perform_injections w _ d (injection_calls_no_await (TRIGGER_KEYS d))).
    destruct Ht as [-> | ->]; reflexivity.
  - rewrite (trigger_activity_view_disabled w d H). reflexivity.
Qed.








(** ** Loading the configuration *)

Lemma default_trigger_key :
  KEY_MAP_get (PStr "KEY_LEFTMETA") ecodes.KEY_LEFTMETA = inr ecodes.KEY_LEFTMETA.
Proof. vm_compute. reflexivity. Qed.

Lemma default_injection_key :
  KEY_MAP_get (PStr "KEY_LEFTCTRL") ecodes.KEY_LEFTCTRL = inr ecodes.KEY_LEFTCTRL.
Proof. vm_compute. reflexivity. Qed.

Ltac monad_step :=
  cbn [outcome post out app fst snd negb py_get];
  rewrite ?default_trigger_key, ?default_injection_key;
  cbn [outcome post out app fst snd negb py_get].

Lemma load_config_no_file (env : environment) (d : daemon) :
  find_config_path env = inr None ->
  load_config env d =
    Result (inr tt)
      (set_TRIGGER_KEYS [ecodes.KEY_LEFTCTRL] (set_SUPER_KEYS {[ ecodes.KEY_LEFTMETA ]} d))
      [Print MsgNoConfig; Print (MsgListening (PStr "KEY_LEFTMETA"));
       Print (MsgWillInject (PStr "KEY_LEFTCTRL")); Print (MsgTapTimeout (tap_timeout d))].
Proof.
  intros Hf. unfold load_config. unfold_monad. monad_step. rewrite Hf. reflexivity.
Qed.

Lemma load_config_unreadable (env : environment) (d : daemon) (path : string) (e : exn) :
  find_config_path env = inr (Some path) ->
  String.eqb path "" = false ->
  load_json env path = inl e ->
  is_config_error e = true ->
  load_config env d =
    Result (inr tt)
      (set_TRIGGER_KEYS [ecodes.KEY_LEFTCTRL] (set_SUPER_KEYS {[ ecodes.KEY_LEFTMETA ]} d))
      [Print (MsgConfigError path e); Print (MsgListening (PStr "KEY_LEFTMETA"));
       Print (MsgWillInject (PStr "KEY_LEFTCTRL")); Print (MsgTapTimeout (tap_timeout d))].
Proof.
  intros Hf Hne Hl He. unfold load_config. unfold_monad. unfold try_except. monad_step.
  rewrite Hf. monad_step. rewrite Hne. monad_step. rewrite Hl. monad_step. rewrite He. reflexivity.
Qed.

Lemma load_config_parsed (env : environment) (d : daemon) (path : string)
      (items : list (string * pyval)) (super inject : Z) :
  find_config_path env = inr (Some path) ->
  String.eqb path "" = false ->
  load_json env path = inr (PDict items) ->
  KEY_MAP_get (dict_get items "trigger_key" (PStr "KEY_LEFTMETA")) ecodes.KEY_LEFTMETA
    = inr super ->
  KEY_MAP_get (dict_get items "injection_key" (PStr "KEY_LEFTCTRL")) ecodes.KEY_LEFTCTRL
    = inr inject ->
  load_config env d =
    Result (inr tt)
      (set_TRIGGER_KEYS [inject]
         (set_SUPER_KEYS {[ super ]}
            (set_tap_timeout (dict_get items "tap_timeout" DEFAULT_TAP_TIMEOUT) d)))
      [Print (MsgConfigLoaded path);
       Print (MsgConfigValues (dict_get items "trigger_key" (PStr "KEY_LEFTMETA"))
                              (dict_get items "injection_key" (PStr "KEY_LEFTCTRL"))
                              (dict_get items "tap_timeout" DEFAULT_TAP_TIMEOUT));
       Print (MsgListening (dict_get items "trigger_key" (PStr "KEY_LEFTMETA")));
       Print (MsgWillInject (dict_get items "injection_key" (PStr "KEY_LEFTCTRL")));
       Print (MsgTapTimeout (dict_get items "tap_timeout" DEFAULT_TAP_TIMEOUT))].
Proof.
  intros Hf Hne Hl Hs Hi. unfold load_config. unfold_monad. unfold try_except. monad_step.
  rewrite Hf. monad_step. rewrite Hne. monad_step. rewrite Hl. monad_step.
  rewrite Hs. monad_step. rewrite Hi. reflexivity.
Qed.

(** [load_config] assigns [tap_timeout], [SUPER_KEYS] and [TRIGGER_KEYS] and
    nothing else, whether it returns or raises. *)
Lemma load_config_frame (env : environment) (d : daemon) :
  ui (post (load_config env d)) = ui d
  /\ super_pressed (post (load_config env d)) = super_pressed d
  /\ other_key_pressed (post (load_config env d)) = other_key_pressed d
  /\ devices (post (load_config env d)) = devices d
  /\ device_tasks (post (load_config env d)) = device_tasks d.
Proof.
  unfold load_config. unfold_monad. unfold try_except. monad_step.
  destruct (find_config_path env) as [e|[path|]]; monad_step; auto.
  destruct (String.eqb path ""); monad_step; auto.
  destruct (load_json env path) as [e|config]; monad_step.
  - destruct (is_config_error e); monad_step; auto.
  - destruct config as [ | b | z | f | s | l | items]; monad_step; auto.
    destruct (KEY_MAP_get (dict_get items "trigger_key" (PStr "KEY_LEFTMETA"))
                ecodes.KEY_LEFTMETA) as [e1|super]; monad_step; auto.
    destruct (KEY_MAP_get (dict_get items "injection_key" (PStr "KEY_LEFTCTRL"))
                ecodes.KEY_LEFTCTRL) as [e2|inject]; monad_step; auto.
Qed.





(** C10. When the configuration file gives strings for [trigger_key] and
    [injection_key], [load_config] returns normally; a trigger name that is
    not a key of [KEY_MAP] leaves [KEY_LEFTMETA] as the trigger, an injection
    name that is not a key of [KEY_MAP] leaves [KEY_LEFTCTRL] as the key to
    inject, and what is printed is what a valid file prints: the names as
    given, no error. *)
Theorem unknown_key_names_fall_back (env : environment) (d : daemon) (path : string)
        (items : list (string * pyval)) (trigger injection : string) :
  find_config_path env = inr (Some path) ->
  String.eqb path "" = false ->
  load_json env path = inr (PDict items) ->
  dict_get items "trigger_key" (PStr "KEY_LEFTMETA") = PStr trigger ->
  dict_get items "injection_key" (PStr "KEY_LEFTCTRL") = PStr injection ->
  outcome (load_config env d) = inr tt
  /\ (KEY_MAP !! trigger = None ->
      SUPER_KEYS (post (load_config env d)) = {[ ecodes.KEY_LEFTMETA ]})
  /\ (KEY_MAP !! injection = None ->
      TRIGGER_KEYS (post (load_config env d)) = [ecodes.KEY_LEFTCTRL])
  /\ out (load_config env d) =
       [Print (MsgConfigLoaded path);
        Print (MsgConfigValues (PStr trigger) (PStr injection)
                               (dict_get items "tap_timeout" DEFAULT_TAP_TIMEOUT));
        Print (MsgListening (PStr trigger));
        Print (MsgWillInject (PStr injection));
        Print (MsgTapTimeout (dict_get items "tap_timeout" DEFAULT_TAP_TIMEOUT))].
Proof.
  intros Hf Hne Hl Ht Hi.
  rewrite (load_config_parsed env d path items
             (match KEY_MAP !! trigger with Some c => c | None => ecodes.KEY_LEFTMETA end)
             (match KEY_MAP !! injection with Some c => c | None => ecodes.KEY_LEFTCTRL end)
             Hf Hne Hl)
    by (rewrite ?Ht, ?Hi; unfold KEY_MAP_get; reflexivity).
  rewrite Ht, Hi. cbn [outcome post out].
  split; [reflexivity|]. split; [|split; [|reflexivity]].
  - intros E. rewrite E. reflexivity.
  - intros E. rewrite E. reflexivity.
Qed.

Lemma unknown_key_names_fall_back_witness :
  let items := [("trigger_key", PStr "KEY_CAPSLOCK"); ("injection_key", PStr "KEY_ESC")] in
  let env := machine (inr (PDict items)) (inr (UInput OWN_DEVICE_NAME)) in
  (KEY_MAP !! "KEY_CAPSLOCK" = None /\ KEY_MAP !! "KEY_ESC" = None)
  /\ outcome (load_config env fresh_daemon) = inr tt
  /\ SUPER_KEYS (post (load_config env fresh_daemon)) = {[ ecodes.KEY_LEFTMETA ]}
  /\ TRIGGER_KEYS (post (load_config env fresh_daemon)) = [ecodes.KEY_LEFTCTRL].
Proof.
  intros items env.
  assert (H1 : KEY_MAP !! "KEY_CAPSLOCK" = None) by (vm_compute; reflexivity).
  assert (H2 : KEY_MAP !! "KEY_ESC" = None) by (vm_compute; reflexivity).
  destruct (unknown_key_names_fall_back env fresh_daemon alice_config items
              "KEY_CAPSLOCK" "KEY_ESC")
    as (Hret & Hs & Ht & _); try (vm_compute; reflexivity).
  auto.
Defined.

(** ** Start-up without the synthetic device *)

(** What one call of [handle_event] does to the outside world: nothing, or
    one printed line, or at a clean tap the tap line and then the injector. *)
Lemma handle_out_cases (s : stimulus) (d : daemon) :
  (fires s d = false
   /\ (out (handle s d) = [] \/ exists m, out (handle s d) = [Print m]))
  \/ (fires s d = true
      /\ out (handle s d)
         = Print (MsgCleanTap (now s - super_press_time d))
           :: out (trigger_activity_view (write_error s) d)).
Proof.
  unfold fires.
  destruct (trigger_press (SUPER_KEYS d) (occurring s)) eqn:Hp.
  { rewrite (handle_press s d Hp). left. cbn. eauto. }
  destruct (trigger_release (SUPER_KEYS d) (occurring s)) eqn:Hr.
  { destruct (super_pressed d) eqn:Hd.
    - destruct (other_key_pressed d) eqn:Ho.
      + rewrite (handle_release_interfered s d Hr Hd Ho). left. cbn. eauto.
      + destruct (py_lt (now s - super_press_time d) (tap_timeout d)) as [e|[|]] eqn:Hlt.
        * rewrite (handle_release_raises s d e Hr Hd Ho Hlt). left. cbn. eauto.
        * rewrite (handle_release_tap s d Hr Hd Ho Hlt). right.
          cbn [out existsb]. rewrite await_in_trigger_activity_view.
          split; [apply orb_true_r | reflexivity].
        * rewrite (handle_release_late s d Hr Hd Ho Hlt). left. cbn. eauto.
    - rewrite (handle_release_idle s d Hr Hd). left. cbn. eauto. }
  destruct (super_pressed d) eqn:Hd.
  - destruct (interfering (SUPER_KEYS d) (occurring s)) eqn:Hi.
    + destruct (handle_interference s d Hi Hd) as [m ->]. left. cbn. eauto.
    + rewrite (handle_ignored s d Hp Hr (or_introl Hi)). left. cbn. eauto.
  - rewrite (handle_ignored s d Hp Hr (or_intror Hd)). left. cbn. eauto.
Qed.






(** ** The device classifier *)

Lemma prefix_iff (s1 s2 : string) :
  String.prefix s1 s2 = true <-> exists rest, s2 = s1 +:+ rest.
Proof.
  revert s2. induction s1 as [|a s1 IH]; intros s2.
  - destruct s2; simpl; split; eauto.
  - destruct s2 as [|b s2]; simpl.
    + split; [discriminate | intros [rest [=]]].
    + destruct (Ascii.ascii_dec a b) as [->|Hne].
      * rewrite IH. split; intros [rest H]; exists rest; [rewrite H; reflexivity|].
        injection H as H. exact H.
      * split; [discriminate | intros [rest [=]]; congruence].
Qed.

Lemma str_contains_iff (needle hay : string) :
  str_contains needle hay = true <-> occurs_in needle hay.
Proof.
  unfold occurs_in. induction hay as [|c hay IH]; cbn [str_contains].
  - rewrite orb_false_r, prefix_iff. split.
    + intros [rest H]. exists "", rest. exact H.
    + intros (before & rest & H). destruct before; [exists rest; exact H | discriminate].
  - rewrite orb_true_iff, prefix_iff, IH. split.
    + intros [[rest H] | (before & rest & H)].
      * exists "", rest. exact H.
      * exists (String c before), rest. simpl. rewrite H. reflexivity.
    + intros (before & rest & H). destruct before as [|c' before].
      * left. exists rest. exact H.
      * right. simpl in H. injection H as _ H. exists before, rest. exact H.
Qed.

Lemma declares_iff (caps : gmap Z (list Z)) (etype code : Z) :
  declares caps etype code = true <-> exists codes, caps !! etype = Some codes /\ code ∈ codes.
Proof.
  unfold declares. destruct (caps !! etype) as [codes|].
  - rewrite bool_decide_eq_true. split; [eauto | intros (? & [= <-] & H); exact H].
  - split; [discriminate | intros (? & [=] & _)].
Qed.

Lemma keyboard_like_iff (caps : gmap Z (list Z)) :
  (if has_type caps ecodes.EV_KEY
   then declares caps ecodes.EV_KEY ecodes.KEY_A
        && declares caps ecodes.EV_KEY ecodes.KEY_SPACE
   else false) = true <-> keyboard_like caps.
Proof.
  unfold keyboard_like, has_type.
  destruct (caps !! ecodes.EV_KEY) as [keys|] eqn:E.
  - rewrite bool_decide_eq_true_2 by eauto.
    rewrite andb_true_iff, !declares_iff, E. split.
    + intros [(k1 & [= <-] & H1) (k2 & [= <-] & H2)]. eauto.
    + intros (k & [= <-] & H1 & H2). split; exists keys; auto.
  - rewrite bool_decide_eq_false_2 by (intros [? [=]]).
    split; [discriminate | intros (? & [=] & _)].
Qed.

(** The classifier only reads: it returns its verdict in the state it was
    called in and does nothing to the outside world. *)
Lemma is_valid_device_reads (dev : device) (d : daemon) :
  is_valid_device dev d =
    Result
      (if String.eqb (dev_name dev) OWN_DEVICE_NAME then inr false
       else if str_contains PROXY_DEVICE_NAME (dev_name dev) then inr false
       else if (dev_bustype dev =? 6)%Z then inr false
       else match dev_capabilities dev with
            | inl e => if is_OSError e then inr false else inl e
            | inr caps =>
                inr ((if has_type caps ecodes.EV_KEY
                      then declares caps ecodes.EV_KEY ecodes.KEY_A
                           && declares caps ecodes.EV_KEY ecodes.KEY_SPACE
                      else false)
                     || has_type caps ecodes.EV_REL)
            end)
      d [].
Proof.
  unfold is_valid_device, try_except. unfold_monad.
  destruct (String.eqb (dev_name dev) OWN_DEVICE_NAME); [reflexivity|].
  destruct (str_contains PROXY_DEVICE_NAME (dev_name dev)); [reflexivity|].
  destruct (dev_bustype dev =? 6)%Z; [reflexivity|].
  destruct (dev_capabilities dev) as [e|caps]; [|reflexivity].
  destruct (is_OSError e); reflexivity.
Qed.

(** C7. The classifier has no side effect.  It rejects a device whose name
    is the daemon's own, whose name contains the proxy's name, whose bus is
    the virtual bus, or whose capabilities cannot be queried for a
    permission or I/O error; any other device that answers the query is
    accepted exactly when it is keyboard-like (it declares [KEY_A], a letter
    key, and the space key) or pointer-like (it declares relative motion). *)
Theorem is_valid_device_spec (dev : device) (d : daemon) :
  (post (is_valid_device dev d) = d /\ out (is_valid_device dev d) = [])
  /\ (rejected dev -> outcome (is_valid_device dev d) = inr false)
  /\ (forall caps,
        ~ rejected dev ->
        dev_capabilities dev = inr caps ->
        (outcome (is_valid_device dev d) = inr true
         \/ outcome (is_valid_device dev d) = inr false)
        /\ (outcome (is_valid_device dev d) = inr true
            <-> keyboard_like caps \/ pointer_like caps)).
Proof.
  rewrite is_valid_device_reads. cbn [outcome post out].
  split; [auto|]. split.
  - intros [Hn | [Hp | [Hb | (e & Hc & He)]]].
    + apply String.eqb_eq in Hn. rewrite Hn. reflexivity.
    + apply str_contains_iff in Hp. rewrite Hp.
      destruct (String.eqb _ _); reflexivity.
    + change ecodes.BUS_VIRTUAL with 6 in Hb. apply Z.eqb_eq in Hb. rewrite Hb.
      destruct (String.eqb _ _); [reflexivity|].
      destruct (str_contains _ _); reflexivity.
    + rewrite Hc, He.
      destruct (String.eqb _ _); [reflexivity|].
      destruct (str_contains _ _); [reflexivity|].
      destruct (_ =? _)%Z; reflexivity.
  - intros caps Hrej Hc.
    destruct (String.eqb (dev_name dev) OWN_DEVICE_NAME) eqn:Hn.
    { exfalso. apply Hrej. left. apply String.eqb_eq. exact Hn. }
    destruct (str_contains PROXY_DEVICE_NAME (dev_name dev)) eqn:Hp.
    { exfalso. apply Hrej. right. left. apply str_contains_iff. exact Hp. }
    destruct (dev_bustype dev =? 6)%Z eqn:Hb.
    { exfalso. apply Hrej. right. right. left. apply Z.eqb_eq. exact Hb. }
    rewrite Hc.
    pose proof (keyboard_like_iff caps) as Hk.
    destruct (if has_type caps ecodes.EV_KEY
              then declares caps ecodes.EV_KEY ecodes.KEY_A
                   && declares caps ecodes.EV_KEY ecodes.KEY_SPACE
              else false) eqn:Ek.
    + split; [auto|]. split; [intros _; left; apply Hk; reflexivity | reflexivity].
    + unfold has_type at 1 2 3. unfold pointer_like. cbn [orb].
      destruct (bool_decide (is_Some (caps !! ecodes.EV_REL))) eqn:Er.
      * split; [auto|]. apply bool_decide_eq_true in Er. tauto.
      * split; [auto|]. apply bool_decide_eq_false in Er.
        split; [discriminate|]. intros [H|H]; [|contradiction].
        apply Hk in H. discriminate.
Qed.

Lemma is_valid_device_spec_witness :
  (~ rejected usb_keyboard /\ keyboard_like
       {[ ecodes.EV_KEY := [ecodes.KEY_A; ecodes.KEY_SPACE; ecodes.KEY_LEFTMETA] ]})
  /\ is_valid_device usb_keyboard default_daemon = Result (inr true) default_daemon [].
Proof.
  assert (Hrej : ~ rejected usb_keyboard).
  { intros [Hn | [Hp | [Hb | (e & Hc & _)]]]; try discriminate.
    apply str_contains_iff in Hp. vm_compute in Hp. discriminate. }
  assert (Hk : keyboard_like
                 {[ ecodes.EV_KEY := [ecodes.KEY_A; ecodes.KEY_SPACE; ecodes.KEY_LEFTMETA] ]}).
  { eexists. split; [reflexivity|]. split.
    - apply list_elem_of_here.
    - apply list_elem_of_further, list_elem_of_here. }
  split; [auto|].
  destruct (is_valid_device_spec usb_keyboard default_daemon) as ((Hp & Ho) & _ & Hacc).
  destruct (Hacc _ Hrej eq_refl) as (_ & Hiff).
  destruct (is_valid_device usb_keyboard default_daemon) as [r p o].
  cbn [outcome post out] in *. subst p o.
  rewrite (proj2 Hiff (or_introl Hk)). reflexivity.
Defined.

(** ** The device table *)

Lemma get_device_type_reads (dev : device) (d : daemon) :
  exists dtype, get_device_type dev d = Result (inr dtype) d [].
Proof.
  unfold get_device_type, try_except. unfold_monad.
  destruct (dev_capabilities dev) as [e|caps]; [eauto|].
  destruct (has_type caps ecodes.EV_KEY && declares caps ecodes.EV_KEY ecodes.KEY_A);
    destruct (has_type caps ecodes.EV_REL); cbn; eauto.
Qed.

Lemma is_valid_device_pure (dev : device) (d d' : daemon) :
  is_valid_device dev d' = Result (outcome (is_valid_device dev d)) d' [].
Proof.
  rewrite !is_valid_device_reads. reflexivity.
Qed.

Lemma is_valid_device_raises (dev : device) (d : daemon) (e : exn) :
  outcome (is_valid_device dev d) = inl e -> is_OSError e = false.
Proof.
  rewrite is_valid_device_reads. cbn [outcome].
  destruct (String.eqb _ _); [discriminate|].
  destruct (str_contains _ _); [discriminate|].
  destruct (_ =? _)%Z; [discriminate|].
  destruct (dev_capabilities dev) as [e'|caps]; [|discriminate].
  destruct (is_OSError e') eqn:E; [discriminate|]. intros [= <-]. exact E.
Qed.

Lemma add_device_present (env : environment) (path : string) (d : daemon) :
  is_Some (devices d !! path) ->
  add_device env path d = Result (inr tt) d [].
Proof.
  intros [dev H]. unfold add_device. unfold_monad. rewrite H. reflexivity.
Qed.

Lemma add_device_unopened (env : environment) (path : string) (d : daemon) (e : exn) :
  devices d !! path = None ->
  InputDevice env path = inl e ->
  add_device env path d
  = Result (if is_OSError e then inr tt else inl e) d [OpenDevice path].
Proof.
  intros H Ho. unfold add_device, try_except. unfold_monad. rewrite H, Ho.
  cbn [outcome post out app]. destruct (is_OSError e); reflexivity.
Qed.

Lemma add_device_opened (env : environment) (path : string) (d : daemon) (dev : device) :
  devices d !! path = None ->
  InputDevice env path = inr dev ->
  match outcome (is_valid_device dev d) with
  | inl e => add_device env path d = Result (inl e) d [OpenDevice path]
  | inr false =>
      add_device env path d = Result (inr tt) d [OpenDevice path; CloseDevice dev]
  | inr true =>
      exists dtype,
        add_device env path d
        = Result (inr tt) (with_device path dev d)
            [OpenDevice path; CreateTask (MonitorTask dev);
             Print (MsgHotplugAdded dtype (dev_name dev) path)]
  end.
Proof.
  intros H Ho.
  pose proof (is_valid_device_raises dev d) as Hraise.
  pose proof (is_valid_device_reads dev d) as Hreads.
  unfold add_device, try_except. unfold_monad. rewrite H, Ho.
  cbn [outcome post out app].
  destruct (is_valid_device dev d) as [[e|[|]] p o]; cbn [outcome post out app] in *.
  - injection Hreads as _ -> ->. rewrite (Hraise e eq_refl). reflexivity.
  - injection Hreads as _ -> ->.
    destruct (get_device_type_reads dev (with_device path dev d)) as [dtype Ht].
    unfold with_device in Ht. rewrite Ht. cbn [outcome post out app].
    exists dtype. reflexivity.
  - injection Hreads as _ -> ->. reflexivity.
Qed.

Lemma count_key {V} (l : list (string * V)) (k : string) :
  NoDup l.*1 ->
  length (filter (fun kv => kv.1 = k) l) = if decide (k ∈ l.*1) then 1%nat else 0%nat.
Proof.
  induction l as [|[k' v] l IH]; intros Hnd.
  - rewrite decide_False by apply not_elem_of_nil. reflexivity.
  - cbn [fmap list_fmap fst] in *. apply NoDup_cons in Hnd as [Hk' Hnd].
    specialize (IH Hnd). rewrite filter_cons. cbn [fst].
    destruct (decide (k' = k)) as [->|Hne].
    + cbn [length]. rewrite IH.
      rewrite (decide_False (P := k ∈ l.*1)) by assumption.
      rewrite decide_True by apply list_elem_of_here. reflexivity.
    + rewrite IH. destruct (decide (k ∈ l.*1)) as [Hin|Hnin].
      * rewrite decide_True by (apply list_elem_of_further; assumption). reflexivity.
      * rewrite decide_False; [reflexivity|].
        intros [?|?]%elem_of_cons; [congruence | contradiction].
Qed.

(** A table holds one entry for an identifier it maps and none for one it
    does not: an identifier never appears twice. *)
Lemma entries_lookup {V} (path : string) (table : gmap string V) :
  entries path table = match table !! path with Some _ => 1%nat | None => 0%nat end.
Proof.
  unfold entries. rewrite count_key by apply NoDup_fst_map_to_list.
  destruct (table !! path) as [v|] eqn:E.
  - rewrite decide_True; [reflexivity|].
    apply list_elem_of_fmap. exists (path, v). split; [reflexivity|].
    apply elem_of_map_to_list. exact E.
  - rewrite decide_False; [reflexivity|].
    intros ([k v] & Hk & Hin)%list_elem_of_fmap. cbn in Hk. subst k.
    apply elem_of_map_to_list in Hin. congruence.
Qed.

Lemma with_device_lookup (path : string) (dev : device) (d : daemon) :
  devices (with_device path dev d) !! path = Some dev
  /\ device_tasks (with_device path dev d) !! path = Some (MonitorTask dev).
Proof.
  unfold with_device. cbn. rewrite !lookup_insert_eq. auto.
Qed.

(** What [add_device] leaves in the table for the identifier it was given. *)
Lemma add_device_table (env : environment) (path : string) (d : daemon) :
  (is_Some (devices d !! path) /\ post (add_device env path d) = d)
  \/ (devices d !! path = None
      /\ post (add_device env path d) = d
      /\ ~ exists dev, InputDevice env path = inr dev
                       /\ outcome (is_valid_device dev d) = inr true)
  \/ (devices d !! path = None
      /\ exists dev, InputDevice env path = inr dev
                     /\ outcome (is_valid_device dev d) = inr true
                     /\ post (add_device env path d) = with_device path dev d).
Proof.
  destruct (devices d !! path) as [h|] eqn:H.
  { left. split; [eauto|]. rewrite add_device_present by (rewrite H; eauto). reflexivity. }
  right.
  destruct (InputDevice env path) as [e|dev] eqn:Ho.
  { left. rewrite (add_device_unopened env path d e H Ho).
    repeat split. intros (dev & [=] & _). }
  pose proof (add_device_opened env path d dev H Ho) as Hc.
  destruct (outcome (is_valid_device dev d)) as [e|[|]] eqn:Hv.
  - left. rewrite Hc. repeat split. intros (dev' & [= <-] & Hv'). congruence.
  - right. destruct Hc as [dtype ->]. split; [reflexivity|]. exists dev. auto.
  - left. rewrite Hc. repeat split. intros (dev' & [= <-] & Hv'). congruence.
Qed.

(** C6, as the code has it. Adding an identifier that is already in the
    table changes nothing and does nothing: no device is opened, no task is
    created, the handle stays.  Adding the same identifier twice leaves the
    table as adding it once does, the second call doing nothing when the
    first one has put the device in.  The table then holds at most one entry
    for the identifier: exactly one when the identifier was already there or
    its device opens and is eligible, none otherwise. *)
Theorem add_device_idempotent (env : environment) (path : string) (d : daemon) :
  (is_Some (devices d !! path) -> add_device env path d = Result (inr tt) d [])
  /\ post (add_device env path (post (add_device env path d)))
     = post (add_device env path d)
  /\ (is_Some (devices (post (add_device env path d)) !! path) ->
      add_device env path (post (add_device env path d))
      = Result (inr tt) (post (add_device env path d)) [])
  /\ (entries path (devices (post (add_device env path (post (add_device env path d)))))
      <= 1)%nat
  /\ (entries path (devices (post (add_device env path (post (add_device env path d)))))
      = 1%nat
      <-> is_Some (devices d !! path)
          \/ exists dev, InputDevice env path = inr dev
                         /\ outcome (is_valid_device dev d) = inr true).
Proof.
  split; [apply add_device_present|].
  destruct (add_device_table env path d)
    as [[Hin E] | [(Hout & E & Hno) | (Hout & dev & Ho & Hv & E)]].
  - rewrite !E. rewrite entries_lookup. destruct Hin as [h Hh]. rewrite Hh.
    split; [reflexivity|]. split; [intros _; apply add_device_present; eauto|].
    split; [lia|]. split; eauto.
  - rewrite !E. rewrite entries_lookup, Hout.
    split; [reflexivity|]. split; [intros [h [=]]|].
    split; [lia|]. split; [discriminate|].
    intros [[h Hh] | Hex]; [congruence | contradiction].
  - destruct (with_device_lookup path dev d) as [Hd _].
    rewrite E.
    rewrite (add_device_present env path (with_device path dev d)) by (rewrite Hd; eauto).
    cbn [post]. rewrite entries_lookup, Hd.
    split; [reflexivity|]. split; [intros _; reflexivity|].
    split; [lia|]. split; eauto.
Qed.

Lemma add_device_idempotent_witness :
  let path := "/dev/input/event3" in
  let once := post (add_device desk path default_daemon) in
  devices once !! path = Some usb_keyboard
  /\ add_device desk path once = Result (inr tt) once []
  /\ entries path (devices (post (add_device desk path once))) = 1%nat.
Proof.
  intros path once.
  destruct (add_device_idempotent desk path default_daemon) as (_ & _ & Hnoop & _ & Hone).
  assert (Hk : devices once !! path = Some usb_keyboard) by (vm_compute; reflexivity).
  split; [exact Hk|]. split.
  - apply Hnoop. exists usb_keyboard. exact Hk.
  - apply Hone. right. exists usb_keyboard. split; vm_compute; reflexivity.
Defined.

(** C6 as stated fails: adding twice a device that is not eligible (here the
    power button, which has neither a letter key nor relative motion)
    leaves no entry for it, not exactly one. *)
Lemma ineligible_device_leaves_no_entry :
  let path := "/dev/input/event0" in
  let once := post (add_device desk path default_daemon) in
  let twice := post (add_device desk path once) in
  InputDevice desk path = inr power_button
  /\ devices twice !! path = None
  /\ entries path (devices twice) = 0%nat.
Proof.
  intros path once twice.
  assert (H : devices twice !! path = None) by (vm_compute; reflexivity).
  split; [reflexivity|]. split; [exact H|].
  rewrite entries_lookup, H. reflexivity.
Qed.

(** * Further properties of the daemon *)

(** ** The tap detector *)

(** What it takes for a call to invoke the injector. *)
Lemma fires_only_on_clean_tap (s : stimulus) (d : daemon) :
  fires s d = true ->
  trigger_release (SUPER_KEYS d) (occurring s) = true
  /\ super_pressed d = true /\ other_key_pressed d = false
  /\ py_lt (now s - super_press_time d) (tap_timeout d) = inr true.
Proof.
  intros Hf.
  destruct (trigger_release (SUPER_KEYS d) (occurring s)) eqn:Hr.
  - split; [reflexivity|]. apply (fires_iff_state s d Hr). exact Hf.
  - exfalso. revert Hf. unfold fires.
    destruct (trigger_press (SUPER_KEYS d) (occurring s)) eqn:Hp.
    { rewrite (handle_press s d Hp). discriminate. }
    destruct (super_pressed d) eqn:Hd.
    + destruct (interfering (SUPER_KEYS d) (occurring s)) eqn:Hi.
      * destruct (handle_interference s d Hi Hd) as [m ->]. discriminate.
      * rewrite (handle_ignored s d Hp Hr (or_introl Hi)). discriminate.
    + rewrite (handle_ignored s d Hp Hr (or_intror Hd)). discriminate.
Qed.

Lemma handle_injections (s : stimulus) (d : daemon) :
  injections (out (handle s d)) = if fires s d then 1%nat else 0%nat.
Proof.
  destruct (handle_out_cases s d) as [[Hf [E|[m E]]]|[Hf E]]; rewrite E, Hf.
  - reflexivity.
  - reflexivity.
  - rewrite injections_cons, trigger_activity_view_injections. reflexivity.
Qed.

(** X1. In [Idle] every event but a press of the trigger key is ignored:
    the daemon is left as it was and nothing is printed or injected.  A
    release that no press preceded is one such event. *)
Theorem idle_ignores_all_but_press (s : stimulus) (d : daemon) :
  super_pressed d = false ->
  trigger_press (SUPER_KEYS d) (occurring s) = false ->
  handle s d = Result (inr tt) d [].
Proof.
  intros Hd Hp.
  destruct (trigger_release (SUPER_KEYS d) (occurring s)) eqn:Hr.
  - apply handle_release_idle; assumption.
  - apply handle_ignored; auto.
Qed.

Lemma idle_ignores_all_but_press_witness :
  super_pressed default_daemon = false
  /\ trigger_press (SUPER_KEYS default_daemon) super_up = false
  /\ handle (Stimulus 1 None super_up) default_daemon = Result (inr tt) default_daemon [].
Proof.
  split; [reflexivity|]. split; [vm_compute; reflexivity|].
  apply (idle_ignores_all_but_press (Stimulus 1 None super_up) default_daemon);
    [reflexivity | vm_compute; reflexivity].
Defined.

(** X2. Moving the pointer does not spoil a tap, nor does letting go of
    another key: in every state, an event that is neither a key event nor a
    relative one, a relative event that is not a wheel or has a zero delta,
    and an event of another key with a value other than 1 (a release or an
    auto-repeat) leave the daemon as it was. *)
Theorem motion_and_releases_change_nothing (s : stimulus) (d : daemon) :
  (ev_type (occurring s) <> ecodes.EV_KEY
   /\ (ev_type (occurring s) <> ecodes.EV_REL
       \/ (ev_code (occurring s) <> ecodes.REL_WHEEL
           /\ ev_code (occurring s) <> ecodes.REL_HWHEEL)
       \/ ev_value (occurring s) = 0))
  \/ (ev_type (occurring s) = ecodes.EV_KEY
      /\ (ev_code (occurring s) ∉ SUPER_KEYS d)
      /\ ev_value (occurring s) <> 1) ->
  handle s d = Result (inr tt) d [].
Proof.
  intros H.
  assert (Hp : trigger_press (SUPER_KEYS d) (occurring s) = false).
  { unfold trigger_press. destruct H as [[Ht _] | (_ & Hk & _)].
    - apply Z.eqb_neq in Ht. rewrite Ht. reflexivity.
    - rewrite (bool_decide_eq_false_2 _ Hk). apply andb_false_iff. left. apply andb_false_r. }
  assert (Hr : trigger_release (SUPER_KEYS d) (occurring s) = false).
  { unfold trigger_release. destruct H as [[Ht _] | (_ & Hk & _)].
    - apply Z.eqb_neq in Ht. rewrite Ht. reflexivity.
    - rewrite (bool_decide_eq_false_2 _ Hk). apply andb_false_iff. left. apply andb_false_r. }
  apply handle_ignored; try assumption. left.
  unfold interfering. destruct H as [[Ht H] | (Ht & Hk & Hv)].
  - apply Z.eqb_neq in Ht. rewrite Ht. cbn [andb orb].
    destruct H as [Hrel | [[Hw Hh] | Hz]].
    + apply Z.eqb_neq in Hrel. rewrite Hrel. reflexivity.
    + apply Z.eqb_neq in Hw, Hh. rewrite Hw, Hh. apply andb_false_iff. left. apply andb_false_r.
    + rewrite Hz. apply andb_false_r.
  - rewrite Ht. apply Z.eqb_neq in Hv. rewrite Hv. cbn.
    rewrite andb_false_r. reflexivity.
Qed.

Lemma motion_and_releases_change_nothing_witness :
  let held := after default_daemon [Stimulus 0 None super_down] in
  let move := Stimulus (1 # 10) None (Event ecodes.EV_REL 0 5) in
  super_pressed held = true
  /\ handle move held = Result (inr tt) held [].
Proof.
  intros held move. split; [vm_compute; reflexivity|].
  apply (motion_and_releases_change_nothing move held).
  left. split; [discriminate|]. right. left. split; discriminate.
Defined.

Lemma after_cons (d : daemon) (s : stimulus) (stream : list stimulus) :
  after d (s :: stream) = after (post (handle s d)) stream.
Proof. reflexivity. Qed.




Lemma effects_injections_zero (d : daemon) (stream : list stimulus) :
  (forall st s, tap_timeout st = tap_timeout d -> fires s st = false) ->
  injections (effects d stream) = 0%nat.
Proof.
  intros Hnever. revert d Hnever.
  induction stream as [|s stream IH]; intros d Hnever; [reflexivity|].
  cbn [effects]. rewrite injections_app, handle_injections, (Hnever d s eq_refl).
  apply IH. intros st s' Ht. apply Hnever.
  destruct (handle_same_setup s d) as (_ & _ & Ht' & _). congruence.
Qed.

(** X4. With a timeout that is not a number (a string, say, or null), the
    release that would be a clean tap raises [TypeError] and leaves the
    detector in [TriggerDown] as it was, and no stream of events ever
    invokes the injector. *)
Theorem non_numeric_timeout_never_injects (d : daemon) :
  is_number (tap_timeout d) = false ->
  (forall s,
     trigger_release (SUPER_KEYS d) (occurring s) = true ->
     super_pressed d = true ->
     other_key_pressed d = false ->
     handle s d = Result (inl TypeError) d [])
  /\ forall stream, injections (effects d stream) = 0%nat.
Proof.
  intros Hnum. split.
  - intros s Hr Hd Ho. apply handle_release_raises; try assumption.
    apply py_lt_not_number. assumption.
  - intros stream. apply effects_injections_zero.
    intros st s Ht. destruct (fires s st) eqn:Hf; [|reflexivity].
    apply fires_only_on_clean_tap in Hf as (_ & _ & _ & Hlt).
    rewrite py_lt_not_number in Hlt by congruence. discriminate.
Qed.

Lemma non_numeric_timeout_never_injects_witness :
  let d := set_tap_timeout (PStr "0.5") default_daemon in
  let tap := [Stimulus 0 None super_down; Stimulus (3 # 10) None super_up] in
  is_number (tap_timeout d) = false
  /\ injections (effects d tap) = 0%nat
  /\ injections (effects default_daemon tap) = 1%nat.
Proof.
  intros d tap.
  destruct (non_numeric_timeout_never_injects d eq_refl) as [_ H].
  split; [reflexivity|]. split; [apply H | vm_compute; reflexivity].
Defined.





(** ** The injector *)




Lemma ui_calls_cons (e : effect) (l : list effect) :
  ui_calls (e :: l) = if is_ui_call e then e :: ui_calls l else ui_calls l.
Proof.
  unfold ui_calls. rewrite filter_cons.
  destruct (is_ui_call e) eqn:E.
  - rewrite decide_True by reflexivity. reflexivity.
  - rewrite decide_False by discriminate. reflexivity.
Qed.

Lemma perform_with_error (n : nat) (calls : list effect) (d : daemon) :
  Forall (fun c => is_ui_call c = true \/ exists t, c = Sleep t) calls ->
  ui_calls (out (perform (Some n) calls d)) = take n (ui_calls calls)
  /\ (outcome (perform (Some n) calls d) = inl OSError
      <-> (n < length (ui_calls calls))%nat).
Proof.
  intros H. revert n. induction H as [|c rest Hc _ IH]; intros n.
  - cbn. rewrite take_nil. split; [reflexivity|]. split; [discriminate | lia].
  - destruct Hc as [Hc | [t ->]].
    + rewrite (ui_calls_cons c rest), Hc.
      destruct n as [|n].
      * assert (E : perform (Some 0%nat) (c :: rest) d = Result (inl OSError) d [])
          by (destruct c; try discriminate; reflexivity).
        rewrite E. cbn. split; [reflexivity|]. split; [lia | reflexivity].
      * assert (E : perform (Some (S n)) (c :: rest) d
                    = (emit c;; perform (Some n) rest) d)
          by (destruct c; try discriminate; reflexivity).
        rewrite E, emit_then. cbn [outcome out].
        rewrite (ui_calls_cons c), Hc. destruct (IH n) as [-> Hiff].
        split; [reflexivity|]. rewrite Hiff. cbn [length]. lia.
    + cbn [perform]. rewrite emit_then. cbn [outcome out].
      rewrite !ui_calls_cons. cbn [is_ui_call]. apply IH.
Qed.

Lemma injection_calls_shape (keys : list Z) :
  Forall (fun c => is_ui_call c = true \/ exists t, c = Sleep t) (injection_calls keys).
Proof.
  unfold injection_calls.
  repeat (apply Forall_app; split);
    try (apply List.Forall_forall; intros e (k & <- & _)%in_map_iff; left; reflexivity).
  - repeat constructor.
  - constructor; [right; eauto | constructor].
  - repeat constructor.
Qed.

(** X7. A write to the synthetic device that fails is contained: the
    injector still returns normally and leaves the daemon as it was.  The
    calls that reached the device are those before the failing one, nothing
    is attempted after it (a key pressed before the failure is not
    released), and the failure is printed exactly when one of the calls of
    the sequence was the failing one. *)
Theorem write_error_is_contained (d : daemon) (u : uinput) (n : nat) :
  ui d = Some u ->
  outcome (trigger_activity_view (Some n) d) = inr tt
  /\ post (trigger_activity_view (Some n) d) = d
  /\ ui_calls (out (trigger_activity_view (Some n) d))
     = take n (ui_calls (injection_calls (TRIGGER_KEYS d)))
  /\ (Print (MsgInjectFailed OSError) ∈ out (trigger_activity_view (Some n) d)
      <-> (n < length (ui_calls (injection_calls (TRIGGER_KEYS d))))%nat).
Proof.
  intros Hu.
  split; [apply trigger_activity_view_outcome|].
  split; [apply trigger_activity_view_post|].
  destruct (perform_with_error n (injection_calls (TRIGGER_KEYS d)) d
              (injection_calls_shape (TRIGGER_KEYS d))) as [Hcalls Hfail].
  assert (Hnoprint : forall m, Print m ∉ out (perform (Some n)
                                     (injection_calls (TRIGGER_KEYS d)) d)).
  { intros m Hin.
    assert (Hsub : forall calls w e, e ∈ out (perform w calls d) -> e ∈ calls).
    { induction calls as [|c rest IHc]; intros w e He.
      - exact He.
      - destruct (perform_step w c rest d) as [E|[w' E]]; rewrite E in He.
        + apply elem_of_nil in He. contradiction.
        + cbn [out] in He. apply elem_of_cons in He as [->|He].
          * apply list_elem_of_here.
          * apply list_elem_of_further. eapply IHc. exact He. }
    apply Hsub in Hin.
    pose proof (injection_calls_shape (TRIGGER_KEYS d)) as Hshape.
    rewrite List.Forall_forall in Hshape.
    apply list_elem_of_In in Hin.
    destruct (Hshape _ Hin) as [Hc | [t Hc]]; discriminate. }
  unfold trigger_activity_view, try_except. unfold_monad. rewrite Hu.
  pose proof (perform_post (Some n) (injection_calls (TRIGGER_KEYS d)) d) as Hp.
  destruct (perform_outcome (Some n) (injection_calls (TRIGGER_KEYS d)) d) as [Ho|Ho];
    destruct (perform (Some n) (injection_calls (TRIGGER_KEYS d)) d) as [r p o];
    cbn [outcome post out] in *; subst p r; cbn [is_OSError outcome post out app].
  - rewrite !ui_calls_cons. cbn [is_ui_call]. split; [exact Hcalls|].
    rewrite <- Hfail. split; [|discriminate].
    intros Hin. exfalso.
    apply elem_of_cons in Hin as [[=]|Hin].
    apply elem_of_cons in Hin as [[=]|Hin].
    exact (Hnoprint _ Hin).
  - rewrite !ui_calls_cons. cbn [is_ui_call].
    split.
    + unfold ui_calls in *. rewrite filter_app. cbn. rewrite app_nil_r. exact Hcalls.
    + rewrite <- Hfail. split; [reflexivity|]. intros _.
      apply list_elem_of_further, list_elem_of_further.
      apply elem_of_app. right. apply list_elem_of_here.
Qed.

Lemma write_error_is_contained_witness :
  ui default_daemon = Some (UInput OWN_DEVICE_NAME)
  /\ ui_calls (out (trigger_activity_view (Some 2%nat) default_daemon))
     = [UiWrite ecodes.EV_KEY ecodes.KEY_LEFTCTRL 1; UiSyn]
  /\ Print (MsgInjectFailed OSError)
     ∈ out (trigger_activity_view (Some 2%nat) default_daemon).
Proof.
  destruct (write_error_is_contained default_daemon (UInput OWN_DEVICE_NAME) 2 eq_refl)
    as (_ & _ & Hcalls & Hfail).
  split; [reflexivity|]. split.
  - rewrite Hcalls. vm_compute. reflexivity.
  - apply Hfail. vm_compute. lia.
Defined.

(** ** Finding and loading the configuration *)

(** X8. A configuration file that cannot be opened for lack of permission
    or does not decode as JSON is not fatal: [load_config] reports it,
    returns normally and leaves the defaults in full, the left Super key as
    trigger, the left Control key to inject and the timeout as it was. *)
Theorem unreadable_config_gives_defaults (env : environment) (d : daemon)
        (path : string) (e : exn) :
  find_config_path env = inr (Some path) ->
  String.eqb path "" = false ->
  load_json env path = inl e ->
  is_config_error e = true ->
  outcome (load_config env d) = inr tt
  /\ SUPER_KEYS (post (load_config env d)) = {[ ecodes.KEY_LEFTMETA ]}
  /\ TRIGGER_KEYS (post (load_config env d)) = [ecodes.KEY_LEFTCTRL]
  /\ tap_timeout (post (load_config env d)) = tap_timeout d
  /\ Print (MsgConfigError path e) ∈ out (load_config env d).
Proof.
  intros Hf Hne Hl He.
  rewrite (load_config_unreadable env d path e Hf Hne Hl He). cbn [outcome post out].
  repeat split. apply list_elem_of_here.
Qed.

Lemma unreadable_config_gives_defaults_witness :
  let env := machine (inl JSONDecodeError) (inr (UInput OWN_DEVICE_NAME)) in
  outcome (load_config env fresh_daemon) = inr tt
  /\ SUPER_KEYS (post (load_config env fresh_daemon)) = {[ ecodes.KEY_LEFTMETA ]}
  /\ TRIGGER_KEYS (post (load_config env fresh_daemon)) = [ecodes.KEY_LEFTCTRL]
  /\ tap_timeout (post (load_config env fresh_daemon)) = DEFAULT_TAP_TIMEOUT.
Proof.
  intros env.
  destruct (unreadable_config_gives_defaults env fresh_daemon alice_config JSONDecodeError)
    as (H1 & H2 & H3 & H4 & _); try (vm_compute; reflexivity).
  auto.
Defined.

Lemma init_fails_with_load_config (env : environment) (e : exn) :
  outcome (load_config env fresh_daemon) = inl e ->
  init env = Result (inl e) (post (load_config env fresh_daemon))
                    (out (load_config env fresh_daemon)).
Proof.
  intros H. unfold init. unfold_monad.
  destruct (load_config env fresh_daemon) as [r p o]. cbn [outcome post out] in *.
  subst r. reflexivity.
Qed.

(** X9. Other failures of the configuration file are fatal.  When opening
    or decoding it raises anything but [PermissionError] or
    [JSONDecodeError], [load_config] raises that exception; when it decodes
    to a value that is not a JSON object, [load_config] raises
    [AttributeError]; and when it gives a list for [trigger_key],
    [load_config] raises [TypeError].  The constructor then
    raises the same exception, without trying to create the synthetic
    device. *)
Theorem malformed_config_is_fatal (env : environment) (path : string) :
  find_config_path env = inr (Some path) ->
  String.eqb path "" = false ->
  (forall e, load_json env path = inl e -> is_config_error e = false ->
             load_config env fresh_daemon = Result (inl e) fresh_daemon [])
  /\ (forall v, load_json env path = inr v -> (forall items, v <> PDict items) ->
                load_config env fresh_daemon = Result (inl AttributeError) fresh_daemon [])
  /\ (forall items l, load_json env path = inr (PDict items) ->
                      dict_get items "trigger_key" (PStr "KEY_LEFTMETA") = PList l ->
                      outcome (load_config env fresh_daemon) = inl TypeError)
  /\ (forall e, outcome (load_config env fresh_daemon) = inl e ->
                outcome (init env) = inl e
                /\ out (init env) = out (load_config env fresh_daemon)
                /\ ui (post (init env)) = None).
Proof.
  intros Hf Hne. repeat split.
  - intros e Hl He. unfold load_config, try_except. unfold_monad.
    rewrite Hf. monad_step. rewrite Hne. monad_step. rewrite Hl. monad_step.
    rewrite He. reflexivity.
  - intros v Hl Hv. unfold load_config, try_except. unfold_monad.
    rewrite Hf. monad_step. rewrite Hne. monad_step. rewrite Hl. monad_step.
    destruct v; try reflexivity. exfalso. eapply Hv. reflexivity.
  - intros items l Hl Hk. unfold load_config, try_except. unfold_monad.
    rewrite Hf. monad_step. rewrite Hne. monad_step. rewrite Hl. monad_step.
    rewrite Hk. reflexivity.
  - rewrite (init_fails_with_load_config env e H). reflexivity.
  - rewrite (init_fails_with_load_config env e H). reflexivity.
  - rewrite (init_fails_with_load_config env e H). cbn [post].
    destruct (load_config_frame env fresh_daemon) as [-> _]. reflexivity.
Qed.

Lemma malformed_config_is_fatal_witness :
  let env := machine (inr (PList [PStr "KEY_LEFTMETA"])) (inr (UInput OWN_DEVICE_NAME)) in
  find_config_path env = inr (Some alice_config)
  /\ init env = Result (inl AttributeError) fresh_daemon [].
Proof.
  intros env.
  assert (Hf : find_config_path env = inr (Some alice_config)) by (vm_compute; reflexivity).
  destruct (malformed_config_is_fatal env alice_config Hf eq_refl) as (_ & Hv & _ & Hinit).
  assert (E : load_config env fresh_daemon = Result (inl AttributeError) fresh_daemon [])
    by (apply (Hv (PList [PStr "KEY_LEFTMETA"])); [reflexivity | discriminate]).
  split; [exact Hf|].
  destruct (Hinit AttributeError) as (Ho & Hout & _); [rewrite E; reflexivity|].
  rewrite (init_fails_with_load_config env AttributeError) by (rewrite E; reflexivity).
  rewrite E. reflexivity.
Defined.




Lemma append_all_spec (paths : list string) (dirs : list string) (x : string) :
  x ∈ fold_left (fun ps user_dir => append_if_new ps ("/home/" +:+ user_dir +:+ config_suffix))
                dirs paths
  <-> x ∈ paths \/ exists dir, dir ∈ dirs /\ x = "/home/" +:+ dir +:+ config_suffix.
Proof.
  revert paths. induction dirs as [|dir dirs IH]; intros paths; cbn [fold_left].
  - split; [auto | intros [H | (dir & Hd & _)]; [exact H | apply elem_of_nil in Hd; contradiction]].
  - rewrite IH. unfold append_if_new.
    destruct (bool_decide ("/home/" +:+ dir +:+ config_suffix ∈ paths)) eqn:E.
    + apply bool_decide_eq_true in E. split.
      * intros [H | (dir' & Hd & ->)]; [auto|]. right. exists dir'. split; [|reflexivity].
        apply list_elem_of_further. exact Hd.
      * intros [H | (dir' & Hd & ->)]; [auto|].
        apply elem_of_cons in Hd as [-> | Hd]; [auto|]. right. eauto.
    + split.
      * intros [H | (dir' & Hd & ->)].
        -- apply elem_of_app in H as [H | H]; [auto|].
           apply list_elem_of_singleton in H. right. exists dir.
           split; [apply list_elem_of_here | exact H].
        -- right. exists dir'. split; [apply list_elem_of_further; exact Hd | reflexivity].
      * intros [H | (dir' & Hd & ->)].
        -- left. apply elem_of_app. auto.
        -- apply elem_of_cons in Hd as [-> | Hd].
           ++ left. apply elem_of_app. right. apply list_elem_of_here.
           ++ right. eauto.
Qed.

(** X11. Every home directory is searched: when [/home] can be listed, the
    candidates hold the configuration path of each directory in it, and
    every candidate is the caller's own expanded path, the path of
    [SUDO_USER], or the path of one of these directories.  The caller's own
    path is left out when it lies under [/root]. *)
Theorem every_home_is_a_candidate (env : environment) (dirs : list string) :
  listdir_home env = inr dirs ->
  exists user_paths,
    get_user_config_paths env = inr user_paths
    /\ (forall dir, dir ∈ dirs -> "/home/" +:+ dir +:+ config_suffix ∈ user_paths)
    /\ (forall p, p ∈ user_paths ->
          (p = expanded_user_path env /\ String.prefix "/root" p = false)
          \/ (exists sudo_user, SUDO_USER env = Some sudo_user
                                /\ p = "/home/" +:+ sudo_user +:+ config_suffix)
          \/ (exists dir, dir ∈ dirs /\ p = "/home/" +:+ dir +:+ config_suffix)).
Proof.
  intros Hl. unfold get_user_config_paths. rewrite Hl. cbv zeta.
  eexists. split; [reflexivity|]. split.
  - intros dir Hd. apply append_all_spec. right. eauto.
  - intros p Hp. apply append_all_spec in Hp as [Hp | Hp]; [|auto].
    destruct (String.prefix "/root" (expanded_user_path env)) eqn:Hroot;
      destruct (SUDO_USER env) as [u|]; try destruct (String.eqb u "");
      cbn [negb app] in Hp;
      repeat (apply elem_of_cons in Hp as [-> | Hp]);
      try (apply elem_of_nil in Hp; contradiction);
      first [ left; split; [reflexivity | assumption]
            | right; left; exists u; split; reflexivity ].
Qed.

Lemma every_home_is_a_candidate_witness :
  let env := Environment "/root/.config/super-activity-view/config.json" (Some "alice")
                         (inr ["alice"; "bob"]) (fun _ => false)
                         (fun _ => inl PermissionError) (inl PermissionError)
                         (fun _ => inl PermissionError) in
  get_user_config_paths env
  = inr ["/home/alice/.config/super-activity-view/config.json";
         "/home/bob/.config/super-activity-view/config.json"].
Proof.
  intros env.
  destruct (every_home_is_a_candidate env ["alice"; "bob"] eq_refl) as (ups & E & _ & _).
  rewrite E. vm_compute in E. injection E as <-. reflexivity.
Defined.

(** X12. A configuration file is honoured field by field: a trigger name
    that is a key of [KEY_MAP] makes its code the one trigger key, an
    injection name that is a key of [KEY_MAP] makes its code the one key
    injected, and the timeout is the file's; a field the file does not
    give keeps its default. *)
Theorem config_fields_are_honoured (env : environment) (d : daemon) (path : string)
        (items : list (string * pyval)) (trigger injection : string) (super inject : Z) :
  find_config_path env = inr (Some path) ->
  String.eqb path "" = false ->
  load_json env path = inr (PDict items) ->
  dict_get items "trigger_key" (PStr "KEY_LEFTMETA") = PStr trigger ->
  dict_get items "injection_key" (PStr "KEY_LEFTCTRL") = PStr injection ->
  KEY_MAP !! trigger = Some super ->
  KEY_MAP !! injection = Some inject ->
  outcome (load_config env d) = inr tt
  /\ SUPER_KEYS (post (load_config env d)) = {[ super ]}
  /\ TRIGGER_KEYS (post (load_config env d)) = [inject]
  /\ tap_timeout (post (load_config env d))
     = dict_get items "tap_timeout" DEFAULT_TAP_TIMEOUT
  /\ (forall key default, (forall v, ~ In (key, v) items) ->
                          dict_get items key default = default).
Proof.
  intros Hf Hne Hl Ht Hi Hs Hj.
  rewrite (load_config_parsed env d path items super inject Hf Hne Hl)
    by (rewrite ?Ht, ?Hi; unfold KEY_MAP_get; rewrite ?Hs, ?Hj; reflexivity).
  cbn [outcome post out]. repeat split.
  intros key default Hnone. clear - Hnone.
  induction items as [|[k v] items IH]; [reflexivity|]. cbn [dict_get].
  destruct (String.eqb k key) eqn:E.
  - apply String.eqb_eq in E. subst k. exfalso. apply (Hnone v). left. reflexivity.
  - apply IH. intros v' Hin. apply (Hnone v'). right. exact Hin.
Qed.

Lemma config_fields_are_honoured_witness :
  let items := [("trigger_key", PStr "KEY_RIGHTMETA"); ("tap_timeout", PFloat (Finite (3 # 10)))] in
  let env := machine (inr (PDict items)) (inr (UInput OWN_DEVICE_NAME)) in
  SUPER_KEYS (post (load_config env fresh_daemon)) = {[ ecodes.KEY_RIGHTMETA ]}
  /\ TRIGGER_KEYS (post (load_config env fresh_daemon)) = [ecodes.KEY_LEFTCTRL]
  /\ tap_timeout (post (load_config env fresh_daemon)) = PFloat (Finite (3 # 10)).
Proof.
  intros items env.
  destruct (config_fields_are_honoured env fresh_daemon alice_config items
              "KEY_RIGHTMETA" "KEY_LEFTCTRL" ecodes.KEY_RIGHTMETA ecodes.KEY_LEFTCTRL)
    as (_ & H1 & H2 & H3 & _); try (vm_compute; reflexivity).
  rewrite H1, H2, H3. repeat split.
Defined.

(** ** Naming a device *)

(** X13. [get_device_type] never raises and changes nothing.  It answers
    "Unknown" exactly when the capabilities cannot be queried, "Combo" when
    the device declares [KEY_A] and relative motion, "Keyboard" when it
    declares [KEY_A] without relative motion, and "Mouse/Other" otherwise;
    so a device the classifier accepted is never "Unknown", and one it
    accepted that is named "Mouse/Other" has relative motion. *)
Theorem get_device_type_spec (dev : device) (d : daemon) :
  exists dtype,
    get_device_type dev d = Result (inr dtype) d []
    /\ (dtype = "Unknown" <-> exists e, dev_capabilities dev = inl e)
    /\ (forall caps, dev_capabilities dev = inr caps ->
          dtype = (if declares caps ecodes.EV_KEY ecodes.KEY_A
                   then if has_type caps ecodes.EV_REL then "Combo" else "Keyboard"
                   else "Mouse/Other"))
    /\ (outcome (is_valid_device dev d) = inr true ->
        dtype <> "Unknown"
        /\ (dtype = "Mouse/Other" ->
            exists caps, dev_capabilities dev = inr caps /\ pointer_like caps)).
Proof.
  unfold get_device_type, try_except. unfold_monad.
  destruct (dev_capabilities dev) as [e|caps] eqn:Hc.
  - exists "Unknown". split; [reflexivity|]. split; [split; eauto|].
    split; [intros caps [=]|].
    rewrite is_valid_device_reads. cbn [outcome]. rewrite Hc.
    destruct (String.eqb _ _); [discriminate|].
    destruct (str_contains _ _); [discriminate|].
    destruct (_ =? _)%Z; [discriminate|].
    destruct (is_OSError e); discriminate.
  - assert (Hkey : has_type caps ecodes.EV_KEY && declares caps ecodes.EV_KEY ecodes.KEY_A
                   = declares caps ecodes.EV_KEY ecodes.KEY_A).
    { unfold has_type, declares. destruct (caps !! ecodes.EV_KEY) as [keys|].
      - rewrite bool_decide_eq_true_2 by eauto. reflexivity.
      - rewrite bool_decide_eq_false_2 by (intros [? [=]]). reflexivity. }
    rewrite Hkey.
    destruct (declares caps ecodes.EV_KEY ecodes.KEY_A) eqn:Ha;
      destruct (has_type caps ecodes.EV_REL) eqn:Hr; cbn [andb];
      eexists; (split; [reflexivity|]);
      (split; [split; [discriminate | intros [e [=]]]|]);
      (split; [intros caps' [= <-]; rewrite ?Ha, ?Hr; reflexivity|]);
      intros Hv; (split; [discriminate|]); intros Hm; try discriminate;
      exists caps; (split; [reflexivity|]).
    + apply bool_decide_eq_true in Hr. exact Hr.
    + exfalso. revert Hv. rewrite is_valid_device_reads. cbn [outcome]. rewrite Hc.
      destruct (String.eqb _ _); [discriminate|].
      destruct (str_contains _ _); [discriminate|].
      destruct (_ =? _)%Z; [discriminate|].
      rewrite Ha, Hr. destruct (has_type caps ecodes.EV_KEY); discriminate.
Qed.

Lemma get_device_type_spec_witness :
  outcome (is_valid_device usb_mouse default_daemon) = inr true
  /\ get_device_type usb_mouse default_daemon = Result (inr "Mouse/Other") default_daemon []
  /\ get_device_type usb_keyboard default_daemon = Result (inr "Keyboard") default_daemon [].
Proof.
  assert (Hv : outcome (is_valid_device usb_mouse default_daemon) = inr true)
    by (vm_compute; reflexivity).
  split; [exact Hv|].
  destruct (get_device_type_spec usb_mouse default_daemon) as (t1 & E1 & _ & H1 & _).
  destruct (get_device_type_spec usb_keyboard default_daemon) as (t2 & E2 & _ & H2 & _).
  rewrite E1, E2, (H1 _ eq_refl), (H2 _ eq_refl). split; vm_compute; reflexivity.
Defined.

(** ** Adding and removing devices *)

Lemma forget_tables (path : string) (d : daemon) :
  devices (forget path d) = delete path (devices d)
  /\ device_tasks (forget path d) = delete path (device_tasks d)
  /\ same_detector d (forget path d).
Proof.
  unfold forget.
  destruct (devices d !! path) as [dev|] eqn:Hd;
    cbn [device_tasks set_devices];
    destruct (device_tasks d !! path) as [t|] eqn:Ht; cbn;
    rewrite ?(delete_id _ _ Hd), ?(delete_id _ _ Ht);
    repeat split; reflexivity.
Qed.

Lemma remove_device_eq (path : string) (d : daemon) :
  remove_device path d
  = Result (inr tt) (forget path d)
      (match device_tasks d !! path with Some t => [CancelTask t] | None => [] end
       ++ match devices d !! path with
          | Some dev => [CloseDevice dev; Print (MsgHotplugRemoved path)]
          | None => []
          end).
Proof.
  unfold remove_device, forget. unfold_monad.
  destruct (device_tasks d !! path) as [t|] eqn:Ht;
    destruct (devices d !! path) as [dev|] eqn:Hd;
    cbn [outcome post out app devices set_device_tasks device_tasks set_devices];
    rewrite ?Hd, ?Ht; reflexivity.
Qed.

(** X14. [remove_device] never raises.  Afterwards neither table holds the
    identifier, every other entry is as it was and so is the tap detector;
    the task found under the identifier is cancelled and the device found
    under it closed.  For an identifier that is in neither table the call
    does nothing at all. *)
Theorem remove_device_spec (path : string) (d : daemon) :
  outcome (remove_device path d) = inr tt
  /\ devices (post (remove_device path d)) = delete path (devices d)
  /\ device_tasks (post (remove_device path d)) = delete path (device_tasks d)
  /\ same_detector d (post (remove_device path d))
  /\ (forall t, device_tasks d !! path = Some t ->
                 CancelTask t ∈ out (remove_device path d))
  /\ (forall dev, devices d !! path = Some dev ->
                   CloseDevice dev ∈ out (remove_device path d))
  /\ (devices d !! path = None -> device_tasks d !! path = None ->
      remove_device path d = Result (inr tt) d []).
Proof.
  rewrite remove_device_eq. cbn [outcome post out].
  destruct (forget_tables path d) as (Hd & Ht & Hs).
  split; [reflexivity|]. split; [exact Hd|]. split; [exact Ht|]. split; [exact Hs|].
  split; [|split].
  - intros t ->. apply list_elem_of_here.
  - intros dev ->. apply elem_of_app. right. apply list_elem_of_here.
  - intros Hnd Hnt. rewrite Hnd, Hnt. unfold forget. rewrite Hnd, Hnt. reflexivity.
Qed.

Lemma remove_device_spec_witness :
  let path := "/dev/input/event3" in
  let monitored := post (add_device desk path default_daemon) in
  devices monitored !! path = Some usb_keyboard
  /\ devices (post (remove_device path monitored)) !! path = None
  /\ CloseDevice usb_keyboard ∈ out (remove_device path monitored)
  /\ remove_device path default_daemon = Result (inr tt) default_daemon [].
Proof.
  intros path monitored.
  assert (Hk : devices monitored !! path = Some usb_keyboard) by (vm_compute; reflexivity).
  destruct (remove_device_spec path monitored) as (_ & Hd & _ & _ & _ & Hclose & _).
  destruct (remove_device_spec path default_daemon) as (_ & _ & _ & _ & _ & _ & Hnoop).
  split; [exact Hk|]. split; [rewrite Hd; apply lookup_delete_eq|].
  split; [apply Hclose; exact Hk|]. apply Hnoop; reflexivity.
Defined.

Lemma admitted_pure (env : environment) (d d' : daemon) (path : string) :
  admitted env d' path = admitted env d path.
Proof.
  unfold admitted. destruct (InputDevice env path) as [e|dev]; [reflexivity|].
  rewrite (is_valid_device_pure dev d d'). reflexivity.
Qed.

(** The tables [add_device] leaves. *)
Lemma add_device_post (env : environment) (path : string) (d : daemon) :
  post (add_device env path d)
  = match devices d !! path with
    | Some _ => d
    | None => match admitted env d path with
              | Some dev => with_device path dev d
              | None => d
              end
    end.
Proof.
  unfold admitted.
  destruct (add_device_table env path d)
    as [[[h Hin] E] | [(Hout & E & Hno) | (Hout & dev & Ho & Hv & E)]].
  - rewrite Hin. exact E.
  - rewrite Hout, E. destruct (InputDevice env path) as [e|dev]; [reflexivity|].
    destruct (outcome (is_valid_device dev d)) as [e|[|]] eqn:Hv; try reflexivity.
    exfalso. apply Hno. eauto.
  - rewrite Hout, Ho, Hv. exact E.
Qed.

(** X15. Adding a device and removing it again is a round trip: for an
    identifier in neither table whose device opens and is accepted,
    [add_device] followed by [remove_device] leaves both tables as they
    were, cancels the very task that was created and closes the very device
    that was opened. *)
Theorem add_then_remove_round_trip (env : environment) (path : string) (d : daemon)
        (dev : device) :
  devices d !! path = None ->
  device_tasks d !! path = None ->
  admitted env d path = Some dev ->
  devices (post (remove_device path (post (add_device env path d)))) = devices d
  /\ device_tasks (post (remove_device path (post (add_device env path d)))) = device_tasks d
  /\ CreateTask (MonitorTask dev) ∈ out (add_device env path d)
  /\ out (remove_device path (post (add_device env path d)))
     = [CancelTask (MonitorTask dev); CloseDevice dev; Print (MsgHotplugRemoved path)].
Proof.
  intros Hd Ht Ha.
  pose proof (add_device_post env path d) as Hpost. rewrite Hd, Ha in Hpost.
  destruct (with_device_lookup path dev d) as [Hwd Hwt].
  rewrite Hpost, remove_device_eq. cbn [post out].
  destruct (forget_tables path (with_device path dev d)) as (-> & -> & _).
  rewrite Hwd, Hwt.
  split; [unfold with_device; cbn; apply delete_insert_id; exact Hd|].
  split; [unfold with_device; cbn; apply delete_insert_id; exact Ht|].
  split; [|reflexivity].
  unfold admitted in Ha. destruct (InputDevice env path) as [e|dev'] eqn:Ho; [discriminate|].
  destruct (outcome (is_valid_device dev' d)) as [e|[|]] eqn:Hv; try discriminate.
  injection Ha as ->.
  pose proof (add_device_opened env path d dev Hd Ho) as Hc. rewrite Hv in Hc.
  destruct Hc as [dtype ->]. cbn [out].
  apply list_elem_of_further, list_elem_of_here.
Qed.

Lemma add_then_remove_round_trip_witness :
  let path := "/dev/input/event3" in
  admitted desk default_daemon path = Some usb_keyboard
  /\ devices (post (remove_device path (post (add_device desk path default_daemon))))
     = devices default_daemon
  /\ device_tasks (post (remove_device path (post (add_device desk path default_daemon))))
     = device_tasks default_daemon.
Proof.
  intros path.
  assert (Ha : admitted desk default_daemon path = Some usb_keyboard)
    by (vm_compute; reflexivity).
  destruct (add_then_remove_round_trip desk path default_daemon usb_keyboard
              eq_refl eq_refl Ha) as (H1 & H2 & _).
  auto.
Defined.

(** ** Invariants of the device table *)

Lemma seq_returns {A} (m : M unit) (k : M A) (d : daemon) :
  outcome (m d) = inr tt ->
  (m;; k) d = Result (outcome (k (post (m d)))) (post (k (post (m d))))
                     (out (m d) ++ out (k (post (m d)))).
Proof.
  intros H. unfold mbind, daemon_bind, bind.
  destruct (m d) as [r p o]. cbn [outcome post out] in *. subst r.
  destruct (k p); reflexivity.
Qed.

Lemma seq_raises {A} (m : M unit) (k : M A) (d : daemon) (e : exn) :
  outcome (m d) = inl e ->
  (m;; k) d = Result (inl e) (post (m d)) (out (m d)).
Proof.
  intros H. unfold mbind, daemon_bind, bind.
  destruct (m d) as [r p o]. cbn [outcome post out] in *. subst r. reflexivity.
Qed.

Lemma seq_post_cases {A} (m : M unit) (k : M A) (d : daemon) :
  post ((m;; k) d) = post (m d) \/ post ((m;; k) d) = post (k (post (m d))).
Proof.
  destruct (outcome (m d)) as [e|[]] eqn:H.
  - left. rewrite (seq_raises m k d e H). reflexivity.
  - right. rewrite (seq_returns m k d H). reflexivity.
Qed.

Lemma same_detector_refl (d : daemon) : same_detector d d.
Proof. repeat split. Qed.

Lemma same_detector_trans (d1 d2 d3 : daemon) :
  same_detector d1 d2 -> same_detector d2 d3 -> same_detector d1 d3.
Proof.
  intros (A1 & A2 & A3 & A4 & A5 & A6 & A7) (B1 & B2 & B3 & B4 & B5 & B6 & B7).
  repeat split; congruence.
Qed.

Lemma with_device_same_detector (path : string) (dev : device) (d : daemon) :
  same_detector d (with_device path dev d).
Proof. repeat split. Qed.

Lemma add_device_same_detector (env : environment) (path : string) (d : daemon) :
  same_detector d (post (add_device env path d)).
Proof.
  rewrite add_device_post.
  destruct (devices d !! path); [apply same_detector_refl|].
  destruct (admitted env d path); [apply with_device_same_detector | apply same_detector_refl].
Qed.

Lemma with_device_aligned (path : string) (dev : device) (d : daemon) :
  aligned d -> aligned (with_device path dev d).
Proof.
  intros Ha p. unfold with_device. cbn.
  destruct (decide (path = p)) as [->|Hne].
  - rewrite !lookup_insert_eq. reflexivity.
  - rewrite !lookup_insert_ne by assumption. apply Ha.
Qed.

Lemma add_device_aligned (env : environment) (path : string) (d : daemon) :
  aligned d -> aligned (post (add_device env path d)).
Proof.
  intros Ha. rewrite add_device_post.
  destruct (devices d !! path); [exact Ha|].
  destruct (admitted env d path); [apply with_device_aligned; exact Ha | exact Ha].
Qed.

Lemma forget_aligned (path : string) (d : daemon) :
  aligned d -> aligned (forget path d).
Proof.
  intros Ha p. destruct (forget_tables path d) as (-> & -> & _).
  destruct (decide (path = p)) as [->|Hne].
  - rewrite !lookup_delete_eq. reflexivity.
  - rewrite !lookup_delete_ne by assumption. apply Ha.
Qed.

Lemma same_setup_aligned (d d' : daemon) :
  same_setup d d' -> aligned d -> aligned d'.
Proof.
  intros (_ & _ & _ & _ & Hd & Ht) Ha p. rewrite Hd, Ht. apply Ha.
Qed.

Lemma same_setup_trans (d1 d2 d3 : daemon) :
  same_setup d1 d2 -> same_setup d2 d3 -> same_setup d1 d3.
Proof.
  intros (A1 & A2 & A3 & A4 & A5 & A6) (B1 & B2 & B3 & B4 & B5 & B6).
  repeat split; congruence.
Qed.

Lemma read_loop_same_setup (stream : list stimulus) (d : daemon) :
  same_setup d (post (read_loop stream d)).
Proof.
  revert d. induction stream as [|s stream IH]; intros d; [repeat split|].
  cbn [read_loop].
  destruct (seq_post_cases (handle s) (read_loop stream) d) as [E|E]; rewrite E.
  - apply handle_same_setup.
  - eapply same_setup_trans; [apply handle_same_setup | apply IH].
Qed.

Lemma add_devices_invariants (env : environment) (paths : list string) (d : daemon) :
  same_detector d (post (add_devices env paths d))
  /\ (aligned d -> aligned (post (add_devices env paths d))).
Proof.
  revert d. induction paths as [|path paths IH]; intros d.
  - split; [apply same_detector_refl | auto].
  - cbn [add_devices].
    destruct (seq_post_cases (add_device env path) (add_devices env paths) d) as [E|E];
      rewrite E.
    + split; [apply add_device_same_detector | apply add_device_aligned].
    + destruct (IH (post (add_device env path d))) as [Hs Ha]. split.
      * eapply same_detector_trans; [apply add_device_same_detector | exact Hs].
      * intros H. apply Ha, add_device_aligned, H.
Qed.

Lemma emit_then_post {A} (c : effect) (m : M A) (d : daemon) :
  post ((emit c;; m) d) = post (m d).
Proof.
  unfold mbind, daemon_bind, bind, emit. destruct (m d); reflexivity.
Qed.

Lemma pyudev_step_post (env : environment) (polled : option notification) (d : daemon) :
  post (watch_devices_pyudev_step env polled d) = d
  \/ (exists node, post (watch_devices_pyudev_step env polled d)
                   = post (add_device env node d))
  \/ (exists node, post (watch_devices_pyudev_step env polled d) = forget node d).
Proof.
  unfold watch_devices_pyudev_step.
  destruct polled as [[[node|] act]|]; cbn [device_node action]; auto.
  destruct (negb (String.eqb node "") && String.prefix "/dev/input/event" node); auto.
  destruct (String.eqb act "add").
  - right. left. exists node. apply emit_then_post.
  - destruct (String.eqb act "remove"); auto.
    right. right. exists node. rewrite remove_device_eq. reflexivity.
Qed.

Lemma poll_step_post (env : environment) (listed : list string) (d : daemon) :
  post (watch_devices_poll_step env listed d)
  = post (add_devices env (elements (list_to_set listed ∖ dom (devices d) : gset string)) d).
Proof.
  unfold watch_devices_poll_step. rewrite emit_then_post.
  unfold mbind, daemon_bind, bind, get.
  destruct (add_devices env _ d); reflexivity.
Qed.

(** X16. The two tables stay aligned: if every monitored device has its
    monitor task and every task its device, this still holds after
    [handle_event], [add_device], [remove_device], the end of a monitor, a
    udev notification and a polling scan.  It holds when the daemon is
    constructed. *)
Theorem tables_stay_aligned (env : environment) (d : daemon) :
  aligned fresh_daemon
  /\ aligned (post (init env))
  /\ (aligned d ->
      (forall s, aligned (post (handle s d)))
      /\ (forall path, aligned (post (add_device env path d)))
      /\ (forall path, aligned (post (remove_device path d)))
      /\ (forall device stream ending,
            aligned (left_daemon (monitor_device device stream ending d)))
      /\ (forall polled, aligned (post (watch_devices_pyudev_step env polled d)))
      /\ (forall listed, aligned (post (watch_devices_poll_step env listed d)))).
Proof.
  assert (Hfresh : aligned fresh_daemon) by (intros p; reflexivity).
  split; [exact Hfresh|]. split.
  - intros p.
    assert (Hinit : devices (post (init env)) = devices fresh_daemon
                    /\ device_tasks (post (init env)) = device_tasks fresh_daemon).
    { unfold init, try_except. unfold_monad.
      destruct (load_config_frame env fresh_daemon) as (_ & _ & _ & Hd & Ht).
      destruct (load_config env fresh_daemon) as [[e|[]] p' o]; cbn [outcome post out] in *.
      - auto.
      - destruct (create_UInput env) as [e|u]; cbn [outcome post out].
        + destruct (is_Exception e); cbn; auto.
        + cbn. auto. }
    destruct Hinit as [-> ->]. apply Hfresh.
  - intros Ha. repeat split.
    + intros s. eapply same_setup_aligned; [apply handle_same_setup | exact Ha].
    + intros path. apply add_device_aligned, Ha.
    + intros path. rewrite remove_device_eq. apply forget_aligned, Ha.
    + intros device stream ending. cbn [monitor_device left_daemon].
      apply forget_aligned.
      eapply same_setup_aligned; [apply read_loop_same_setup | exact Ha].
    + intros polled.
      destruct (pyudev_step_post env polled d) as [-> | [[node ->] | [node ->]]].
      * exact Ha.
      * apply add_device_aligned, Ha.
      * apply forget_aligned, Ha.
    + intros listed. rewrite poll_step_post. apply add_devices_invariants, Ha.
Qed.

Lemma tables_stay_aligned_witness :
  let monitored := post (add_device desk "/dev/input/event3" default_daemon) in
  aligned default_daemon
  /\ aligned monitored
  /\ aligned (post (remove_device "/dev/input/event3" monitored)).
Proof.
  intros monitored.
  assert (H0 : aligned default_daemon) by (intros p; reflexivity).
  destruct (tables_stay_aligned desk default_daemon) as (_ & _ & Hd).
  destruct (Hd H0) as (_ & Hadd & _).
  pose proof (Hadd "/dev/input/event3") as H1.
  destruct (tables_stay_aligned desk monitored) as (_ & _ & Hm).
  destruct (Hm H1) as (_ & _ & Hrem & _).
  split; [exact H0|]. split; [exact H1|]. apply Hrem.
Defined.

(** X17. Hotplug never disturbs a tap in progress: [add_device],
    [remove_device], a udev notification and a polling scan leave the
    detector's flags and press timestamp, the timeout, the keys and the
    synthetic device exactly as they were. *)
Theorem hotplug_keeps_the_detector (env : environment) (d : daemon) :
  (forall path, same_detector d (post (add_device env path d)))
  /\ (forall path, same_detector d (post (remove_device path d)))
  /\ (forall polled, same_detector d (post (watch_devices_pyudev_step env polled d)))
  /\ (forall listed, same_detector d (post (watch_devices_poll_step env listed d))).
Proof.
  split; [|split; [|split]].
  - intros path. apply add_device_same_detector.
  - intros path. rewrite remove_device_eq. apply forget_tables.
  - intros polled.
    destruct (pyudev_step_post env polled d) as [-> | [[node ->] | [node ->]]].
    + apply same_detector_refl.
    + apply add_device_same_detector.
    + apply forget_tables.
  - intros listed. rewrite poll_step_post. apply add_devices_invariants.
Qed.

(** ** The end of a monitor *)


Lemma monitor_device_tables (device : device) (stream : list stimulus)
      (ending : interruption) (d : daemon) :
  devices (left_daemon (monitor_device device stream ending d)) !! dev_path device = None
  /\ device_tasks (left_daemon (monitor_device device stream ending d)) !! dev_path device
     = None.
Proof.
  cbn [monitor_device left_daemon].
  destruct (forget_tables (dev_path device) (post (read_loop stream d))) as (-> & -> & _).
  split; apply lookup_delete_eq.
Qed.



(** X19. A device that was unplugged can be plugged in again: once its
    monitor has ended, [add_device] for its path puts the device the path
    then opens as into the table, if the classifier accepts it. *)
Theorem replugged_device_is_added (env : environment) (device dev : device)
        (stream : list stimulus) (ending : interruption) (d : daemon) :
  admitted env d (dev_path device) = Some dev ->
  devices (post (add_device env (dev_path device)
                   (left_daemon (monitor_device device stream ending d))))
    !! dev_path device = Some dev
  /\ device_tasks (post (add_device env (dev_path device)
                          (left_daemon (monitor_device device stream ending d))))
       !! dev_path device = Some (MonitorTask dev).
Proof.
  intros Ha.
  destruct (monitor_device_tables device stream ending d) as [Hd _].
  rewrite add_device_post, Hd, (admitted_pure env d), Ha.
  apply with_device_lookup.
Qed.

Lemma replugged_device_is_added_witness :
  let path := "/dev/input/event3" in
  let monitored := post (add_device desk path default_daemon) in
  let gone := left_daemon (monitor_device usb_keyboard [] (Raised OSError) monitored) in
  admitted desk monitored (dev_path usb_keyboard) = Some usb_keyboard
  /\ devices gone !! path = None
  /\ devices (post (add_device desk path gone)) !! path = Some usb_keyboard.
Proof.
  intros path monitored gone.
  assert (Ha : admitted desk monitored (dev_path usb_keyboard) = Some usb_keyboard)
    by (vm_compute; reflexivity).
  destruct (replugged_device_is_added desk usb_keyboard usb_keyboard [] (Raised OSError)
              monitored Ha) as [H _].
  split; [exact Ha|]. split; [vm_compute; reflexivity | exact H].
Defined.

(** ** The first scan *)

Lemma is_valid_device_tame (dev : device) (d : daemon) :
  (forall e, dev_capabilities dev = inl e -> is_OSError e = true) ->
  exists b, is_valid_device dev d = Result (inr b) d [].
Proof.
  intros Ht. rewrite is_valid_device_reads.
  destruct (String.eqb _ _); [eauto|].
  destruct (str_contains _ _); [eauto|].
  destruct (_ =? _)%Z; [eauto|].
  destruct (dev_capabilities dev) as [e|caps]; [|eauto].
  rewrite (Ht e eq_refl). eauto.
Qed.

Lemma accepted_of_lookup (env : environment) (d : daemon) (paths : list string)
      (found : gmap string device) (p : string) :
  accepted_of env d paths found !! p
  = match admitted env d p with
    | Some dev => if bool_decide (p ∈ paths) then Some dev else found !! p
    | None => found !! p
    end.
Proof.
  unfold accepted_of. revert found.
  induction paths as [|path paths IH]; intros found; cbn [fold_left].
  - rewrite bool_decide_eq_false_2 by apply not_elem_of_nil.
    destruct (admitted env d p); reflexivity.
  - rewrite IH. destruct (decide (p = path)) as [->|Hne].
    + rewrite (bool_decide_eq_true_2 (path ∈ path :: paths)) by apply list_elem_of_here.
      destruct (admitted env d path) as [dev|]; [|reflexivity].
      rewrite lookup_insert_eq. destruct (bool_decide (path ∈ paths)); reflexivity.
    + assert (Hb : bool_decide (p ∈ path :: paths) = bool_decide (p ∈ paths)).
      { apply bool_decide_ext. rewrite elem_of_cons. tauto. }
      rewrite Hb.
      destruct (admitted env d path) as [dev'|]; [|reflexivity].
      rewrite lookup_insert_ne by congruence. reflexivity.
Qed.

Lemma scan_devices_spec (env : environment) (paths : list string)
      (found : gmap string device) (d : daemon) :
  tame env paths ->
  exists log,
    scan_devices env paths found d
    = Lifecycle (inr (accepted_of env d paths found)) d log
    /\ (forall dev, Core (CloseDevice dev) ∈ log
                    <-> exists p, p ∈ paths /\ InputDevice env p = inr dev
                                  /\ admitted env d p = None)
    /\ (forall p, Core (OpenDevice p) ∈ log <-> p ∈ paths).
Proof.
  revert found. induction paths as [|path paths IH]; intros found Htame.
  - exists []. split; [reflexivity|]. split.
    + intros dev. split; [intros H; apply elem_of_nil in H; contradiction|].
      intros (p & Hp & _). apply elem_of_nil in Hp. contradiction.
    + intros p. rewrite !elem_of_nil. tauto.
  - assert (Hrest : tame env paths)
      by (intros p Hp; apply Htame, list_elem_of_further, Hp).
    pose proof (Htame path (list_elem_of_here _ _)) as Hpath.
    assert (Hshape : forall found' here,
               (forall dev, Core (CloseDevice dev) ∈ here
                            <-> InputDevice env path = inr dev /\ admitted env d path = None) ->
               (forall p, Core (OpenDevice p) ∈ here <-> p = path) ->
               found' = match admitted env d path with
                        | Some dev => <[path := dev]> found
                        | None => found
                        end ->
               exists log,
                 (let r := scan_devices env paths found' d in
                  Lifecycle (ended r) (left_daemon r) (here ++ did r))
                 = Lifecycle (inr (accepted_of env d (path :: paths) found)) d log
                 /\ (forall dev, Core (CloseDevice dev) ∈ log
                                 <-> exists p, p ∈ path :: paths /\ InputDevice env p = inr dev
                                               /\ admitted env d p = None)
                 /\ (forall p, Core (OpenDevice p) ∈ log <-> p ∈ path :: paths)).
    { intros found' here Hclose Hopen ->.
      destruct (IH (match admitted env d path with
                    | Some dev => <[path := dev]> found
                    | None => found
                    end) Hrest) as (log & -> & Hc & Ho).
      exists (here ++ log). cbn. split; [reflexivity|]. split.
      - intros dev. rewrite elem_of_app, Hclose, Hc. split.
        + intros [[H1 H2] | (p & Hp & H1 & H2)].
          * exists path. split; [apply list_elem_of_here | auto].
          * exists p. split; [apply list_elem_of_further, Hp | auto].
        + intros (p & Hp & H1 & H2). apply elem_of_cons in Hp as [-> | Hp]; [auto|].
          right. eauto.
      - intros p. rewrite elem_of_app, Hopen, Ho, elem_of_cons. tauto. }
    cbn [scan_devices].
    destruct (InputDevice env path) as [e|device] eqn:Hopen.
    + assert (Ha : admitted env d path = None)
        by (unfold admitted; rewrite Hopen; reflexivity).
      rewrite Hpath.
      apply (Hshape found [Core (OpenDevice path)]); [| |rewrite Ha; reflexivity].
      * intros dev. rewrite list_elem_of_singleton.
        split; [intros [=] | intros [[=] _]].
      * intros p. rewrite list_elem_of_singleton.
        split; [intros [= ->]; reflexivity | intros ->; reflexivity].
    + destruct (is_valid_device_tame device d Hpath) as [b Hv]. rewrite Hv.
      cbn [outcome post out map]. destruct b.
      * assert (Ha : admitted env d path = Some device)
          by (unfold admitted; rewrite Hopen, Hv; reflexivity).
        destruct (get_device_type_reads device d) as [dtype Ht]. rewrite Ht.
        cbn [outcome post out map app].
        apply (Hshape (<[path := device]> found)
                      [Core (OpenDevice path);
                       PrintFound dtype (dev_name device) (dev_path device)]);
          [| |rewrite Ha; reflexivity].
        -- intros dev. rewrite !elem_of_cons, elem_of_nil, Ha.
           split; [intros [[=]|[[=]|[]]] | intros [_ [=]]].
        -- intros p. rewrite !elem_of_cons, elem_of_nil.
           split; [intros [[= ->]|[[=]|[]]]; reflexivity | intros ->; auto].
      * assert (Ha : admitted env d path = None)
          by (unfold admitted; rewrite Hopen, Hv; reflexivity).
        apply (Hshape found [Core (OpenDevice path); Core (CloseDevice device)]);
          [| |rewrite Ha; reflexivity].
        -- intros dev. rewrite !elem_of_cons, elem_of_nil. split.
           ++ intros [[=]|[[= ->]|[]]]. auto.
           ++ intros [[= ->] _]. auto.
        -- intros p. rewrite !elem_of_cons, elem_of_nil.
           split; [intros [[= ->]|[[=]|[]]]; reflexivity | intros ->; auto].
Qed.

(** X20. The first scan survives devices it may not open: when opening and
    querying raise nothing but permission and I/O errors,
    [find_input_devices] returns normally, leaves the daemon as it was, and
    returns exactly the listed paths whose device the classifier accepts,
    each with the device it opened as.  Every listed path is tried, and
    the devices that are closed are those that opened and were rejected. *)
Theorem find_input_devices_spec (env : environment) (listed : list string) (d : daemon) :
  tame env listed ->
  exists found,
    ended (find_input_devices env listed d) = inr found
    /\ left_daemon (find_input_devices env listed d) = d
    /\ (forall path dev,
          found !! path = Some dev <-> path ∈ listed /\ admitted env d path = Some dev)
    /\ (forall path, Core (OpenDevice path) ∈ did (find_input_devices env listed d)
                     <-> path ∈ listed)
    /\ (forall dev, Core (CloseDevice dev) ∈ did (find_input_devices env listed d)
                    <-> exists path, path ∈ listed /\ InputDevice env path = inr dev
                                     /\ admitted env d path = None).
Proof.
  intros Htame. unfold find_input_devices.
  destruct (scan_devices_spec env listed ∅ d Htame) as (log & -> & Hc & Ho).
  exists (accepted_of env d listed ∅). cbn [ended left_daemon did].
  split; [reflexivity|]. split; [reflexivity|]. split; [|split; assumption].
  intros path dev. rewrite accepted_of_lookup, lookup_empty.
  destruct (admitted env d path) as [dev'|].
  - destruct (bool_decide (path ∈ listed)) eqn:E.
    + apply bool_decide_eq_true in E. split; [intros [= ->]; auto | intros [_ [= ->]]; reflexivity].
    + apply bool_decide_eq_false in E. split; [discriminate | intros [H _]; contradiction].
  - split; [discriminate | intros [_ [=]]].
Qed.

Lemma find_input_devices_spec_witness :
  let listed := ["/dev/input/event0"; "/dev/input/event1"; "/dev/input/event3"] in
  tame desk listed
  /\ exists found,
       ended (find_input_devices desk listed default_daemon) = inr found
       /\ found !! "/dev/input/event3" = Some usb_keyboard
       /\ found !! "/dev/input/event0" = None
       /\ Core (CloseDevice power_button) ∈ did (find_input_devices desk listed default_daemon).
Proof.
  intros listed.
  assert (Htame : tame desk listed).
  { intros path Hp. repeat (apply elem_of_cons in Hp as [-> | Hp]);
      try (apply elem_of_nil in Hp; contradiction); cbn; try reflexivity;
      intros e [=]. }
  split; [exact Htame|].
  destruct (find_input_devices_spec desk listed default_daemon Htame)
    as (found & E & _ & Hfound & _ & Hclosed).
  exists found. split; [exact E|]. split; [|split].
  - apply Hfound. split; [|vm_compute; reflexivity].
    apply list_elem_of_further, list_elem_of_further, list_elem_of_here.
  - destruct (found !! "/dev/input/event0") as [dev|] eqn:H0; [|reflexivity].
    apply Hfound in H0 as [_ H0]. vm_compute in H0. discriminate.
  - apply Hclosed. exists "/dev/input/event0".
    split; [apply list_elem_of_here|]. split; [reflexivity | vm_compute; reflexivity].
Defined.

(** ** The hotplug watchers *)

(** X21. The udev watcher acts only on additions and removals of event
    nodes: a poll that timed out, a notification without a device node or
    with one that is not under [/dev/input/event], one whose action is
    neither "add" nor "remove", and the removal of a node that is in
    neither table all leave the daemon as it was and do nothing. *)
Theorem udev_notifications_are_filtered (env : environment)
        (polled : option notification) (d : daemon) :
  polled = None
  \/ (exists n, polled = Some n
      /\ (device_node n = None
          \/ device_node n = Some ""
          \/ (exists node, device_node n = Some node
                           /\ String.prefix "/dev/input/event" node = false)
          \/ (action n <> "add" /\ action n <> "remove")
          \/ (exists node, device_node n = Some node /\ action n = "remove"
                           /\ devices d !! node = None
                           /\ device_tasks d !! node = None))) ->
  watch_devices_pyudev_step env polled d = Result (inr tt) d [].
Proof.
  intros [-> | (n & -> & H)]; [reflexivity|].
  unfold watch_devices_pyudev_step.
  destruct H as [-> | [-> | [(node & -> & Hp) | [[Ha Hr] | (node & -> & Hact & Hd & Ht)]]]].
  - reflexivity.
  - reflexivity.
  - rewrite Hp, andb_false_r. reflexivity.
  - destruct (device_node n) as [node|]; [|reflexivity].
    destruct (negb (String.eqb node "") && String.prefix "/dev/input/event" node);
      [|reflexivity].
    apply String.eqb_neq in Ha, Hr. rewrite Ha, Hr. reflexivity.
  - destruct (negb (String.eqb node "") && String.prefix "/dev/input/event" node);
      [|reflexivity].
    rewrite Hact. cbn.
    rewrite remove_device_eq, Hd, Ht. unfold forget. rewrite Hd, Ht. reflexivity.
Qed.

Lemma udev_notifications_are_filtered_witness :
  let mouse_node := Notification (Some "/dev/input/mouse0") "add" in
  String.prefix "/dev/input/event" "/dev/input/mouse0" = false
  /\ watch_devices_pyudev_step desk (Some mouse_node) default_daemon
     = Result (inr tt) default_daemon [].
Proof.
  intros mouse_node. split; [reflexivity|].
  apply (udev_notifications_are_filtered desk (Some mouse_node) default_daemon).
  right. exists mouse_node. split; [reflexivity|].
  right. right. left. exists "/dev/input/mouse0". split; reflexivity.
Defined.

Lemma add_device_lookup (env : environment) (path : string) (d : daemon) (p : string) :
  devices (post (add_device env path d)) !! p
  = if decide (p = path)
    then match devices d !! path with
         | Some dev => Some dev
         | None => admitted env d path
         end
    else devices d !! p.
Proof.
  rewrite add_device_post.
  destruct (decide (p = path)) as [->|Hne].
  - destruct (devices d !! path) as [dev|] eqn:E; [exact E|].
    destruct (admitted env d path) as [dev|]; [apply with_device_lookup | exact E].
  - destruct (devices d !! path); [reflexivity|].
    destruct (admitted env d path); [|reflexivity].
    unfold with_device. cbn. apply lookup_insert_ne. congruence.
Qed.

Lemma add_device_opens (env : environment) (path : string) (d : daemon) (p : string) :
  OpenDevice p ∈ out (add_device env path d) ->
  p = path /\ devices d !! path = None.
Proof.
  destruct (devices d !! path) as [h|] eqn:Hd.
  { rewrite add_device_present by (rewrite Hd; eauto). intros H.
    apply elem_of_nil in H. contradiction. }
  destruct (InputDevice env path) as [e|dev] eqn:Ho.
  { rewrite (add_device_unopened env path d e Hd Ho). cbn [out].
    intros [= ->]%list_elem_of_singleton. auto. }
  pose proof (add_device_opened env path d dev Hd Ho) as Hc.
  destruct (outcome (is_valid_device dev d)) as [e|[|]].
  - rewrite Hc. cbn [out]. intros [= ->]%list_elem_of_singleton. auto.
  - destruct Hc as [dtype ->]. cbn [out]. rewrite !elem_of_cons, elem_of_nil.
    intros [[= ->]|[[=]|[[=]|[]]]]. auto.
  - rewrite Hc. cbn [out]. rewrite !elem_of_cons, elem_of_nil.
    intros [[= ->]|[[=]|[]]]. auto.
Qed.

Lemma add_devices_spec (env : environment) (paths : list string) (d : daemon) :
  (forall p dev, devices d !! p = Some dev ->
                 devices (post (add_devices env paths d)) !! p = Some dev)
  /\ (forall p dev, devices (post (add_devices env paths d)) !! p = Some dev ->
                    devices d !! p = Some dev \/ (p ∈ paths /\ admitted env d p = Some dev))
  /\ (outcome (add_devices env paths d) = inr tt ->
      forall p dev, p ∈ paths -> admitted env d p = Some dev ->
                    is_Some (devices (post (add_devices env paths d)) !! p))
  /\ (forall p, OpenDevice p ∈ out (add_devices env paths d) ->
                p ∈ paths /\ devices d !! p = None).
Proof.
  revert d. induction paths as [|path paths IH]; intros d.
  - cbn. repeat split; auto.
    + intros _ p dev Hp. apply elem_of_nil in Hp. contradiction.
    + apply elem_of_nil in H. contradiction.
    + apply elem_of_nil in H. contradiction.
  - cbn [add_devices].
    pose proof (add_device_lookup env path d) as Hl.
    destruct (outcome (add_device env path d)) as [e|[]] eqn:Hout.
    + rewrite (seq_raises _ _ _ _ Hout). cbn [outcome post out].
      split; [|split; [|split]].
      * intros p dev Hp. rewrite Hl. destruct (decide (p = path)) as [->|]; [|exact Hp].
        rewrite Hp. reflexivity.
      * intros p dev. rewrite Hl. destruct (decide (p = path)) as [->|]; [|auto].
        destruct (devices d !! path); [auto|]. intros Ha. right.
        split; [apply list_elem_of_here | exact Ha].
      * discriminate.
      * intros p Hp. apply add_device_opens in Hp as [-> Hp].
        split; [apply list_elem_of_here | exact Hp].
    + rewrite (seq_returns _ _ _ Hout). cbn [outcome post out].
      destruct (IH (post (add_device env path d))) as (Hmono & Hsound & Hcomp & Hopen).
      split; [|split; [|split]].
      * intros p dev Hp. apply Hmono. rewrite Hl.
        destruct (decide (p = path)) as [->|]; [|exact Hp]. rewrite Hp. reflexivity.
      * intros p dev Hp. apply Hsound in Hp as [Hp | [Hin Ha]].
        -- rewrite Hl in Hp. destruct (decide (p = path)) as [->|]; [|auto].
           destruct (devices d !! path); [auto|]. right.
           split; [apply list_elem_of_here | exact Hp].
        -- right. split; [apply list_elem_of_further, Hin|].
           rewrite <- (admitted_pure env d (post (add_device env path d))). exact Ha.
      * intros Hret p dev Hin Ha.
        apply elem_of_cons in Hin as [-> | Hin].
        -- assert (Hsome : is_Some (devices (post (add_device env path d)) !! path)).
           { rewrite Hl, decide_True by reflexivity.
             destruct (devices d !! path); [eauto|]. rewrite Ha. eauto. }
           destruct Hsome as [dev' Hdev']. exists dev'. apply Hmono. exact Hdev'.
        -- apply (Hcomp Hret p dev Hin).
           rewrite (admitted_pure env d (post (add_device env path d))). exact Ha.
      * intros p Hp. apply elem_of_app in Hp as [Hp | Hp].
        -- apply add_device_opens in Hp as [-> Hp].
           split; [apply list_elem_of_here | exact Hp].
        -- apply Hopen in Hp as [Hin Hnone]. split; [apply list_elem_of_further, Hin|].
           rewrite Hl in Hnone. destruct (decide (p = path)) as [->|]; [|exact Hnone].
           destruct (devices d !! path); [discriminate | reflexivity].
Qed.

Lemma add_devices_nothing_new (env : environment) (paths : list string) (d : daemon) :
  (forall p, p ∈ paths -> devices d !! p = None -> admitted env d p = None) ->
  post (add_devices env paths d) = d.
Proof.
  induction paths as [|path paths IH]; intros Hnone; [reflexivity|].
  assert (E : post (add_device env path d) = d).
  { rewrite add_device_post. destruct (devices d !! path) eqn:Hd; [reflexivity|].
    rewrite (Hnone path (list_elem_of_here _ _) Hd). reflexivity. }
  cbn [add_devices].
  destruct (seq_post_cases (add_device env path) (add_devices env paths) d) as [-> | ->].
  - exact E.
  - rewrite E. apply IH. intros p Hp. apply Hnone, list_elem_of_further, Hp.
Qed.

Lemma poll_paths (listed : list string) (d : daemon) (p : string) :
  p ∈ elements (list_to_set listed ∖ dom (devices d) : gset string)
  <-> p ∈ listed /\ devices d !! p = None.
Proof.
  rewrite elem_of_elements, elem_of_difference, elem_of_list_to_set, not_elem_of_dom.
  reflexivity.
Qed.

Lemma poll_step_eq (env : environment) (listed : list string) (d : daemon) :
  watch_devices_poll_step env listed d
  = let r := add_devices env (elements (list_to_set listed ∖ dom (devices d) : gset string)) d in
    Result (outcome r) (post r) (Sleep DEVICE_SCAN_INTERVAL :: out r).
Proof.
  unfold watch_devices_poll_step. rewrite emit_then.
  unfold mbind, daemon_bind, bind, get.
  destruct (add_devices env _ d); reflexivity.
Qed.

(** X22. A polling scan only ever adds: the devices already monitored keep
    their entries and are not opened again; what it adds are listed paths
    whose device the classifier accepts; and when it returns normally every
    such path is monitored, so that a second scan of the same listing
    leaves the table as the first one did. *)
Theorem polling_scan_spec (env : environment) (listed : list string) (d : daemon) :
  (forall p dev, devices d !! p = Some dev ->
                 devices (post (watch_devices_poll_step env listed d)) !! p = Some dev
                 /\ OpenDevice p ∉ out (watch_devices_poll_step env listed d))
  /\ (forall p dev, devices (post (watch_devices_poll_step env listed d)) !! p = Some dev ->
                    devices d !! p = Some dev \/ (p ∈ listed /\ admitted env d p = Some dev))
  /\ (outcome (watch_devices_poll_step env listed d) = inr tt ->
      (forall p dev, p ∈ listed -> admitted env d p = Some dev ->
                     is_Some (devices (post (watch_devices_poll_step env listed d)) !! p))
      /\ post (watch_devices_poll_step env listed
                 (post (watch_devices_poll_step env listed d)))
         = post (watch_devices_poll_step env listed d)).
Proof.
  rewrite poll_step_eq. cbv zeta. cbn [outcome post out].
  destruct (add_devices_spec env
              (elements (list_to_set listed ∖ dom (devices d) : gset string)) d)
    as (Hmono & Hsound & Hcomp & Hopen).
  assert (Hcomplete :
            outcome (add_devices env
                       (elements (list_to_set listed ∖ dom (devices d) : gset string)) d)
            = inr tt ->
            forall p dev, p ∈ listed -> admitted env d p = Some dev ->
                          is_Some (devices (post (add_devices env
                                     (elements (list_to_set listed ∖ dom (devices d)
                                                : gset string)) d)) !! p)).
  { intros Hret p dev Hin Ha.
    destruct (devices d !! p) as [dev'|] eqn:Hd.
    - exists dev'. apply Hmono. exact Hd.
    - apply (Hcomp Hret p dev); [|exact Ha]. apply poll_paths. auto. }
  split; [|split; [|intros Hret; split]].
  - intros p dev Hp. split; [apply Hmono, Hp|].
    intros [[=] | Hin]%elem_of_cons. apply Hopen in Hin as [_ Hnone]. congruence.
  - intros p dev Hp. apply Hsound in Hp as [Hp | [Hin Ha]]; [auto|].
    apply poll_paths in Hin as [Hin _]. auto.
  - exact (Hcomplete Hret).
  - rewrite poll_step_eq. cbv zeta. cbn [post].
    apply add_devices_nothing_new. intros p Hp Hnone.
    apply poll_paths in Hp as [Hin _].
    rewrite (admitted_pure env d).
    destruct (admitted env d p) as [dev|] eqn:Ha; [|reflexivity].
    destruct (Hcomplete Hret p dev Hin Ha) as [dev' Hdev']. congruence.
Qed.

Lemma polling_scan_spec_witness :
  let listed := ["/dev/input/event0"; "/dev/input/event3"] in
  let scanned := post (watch_devices_poll_step desk listed default_daemon) in
  outcome (watch_devices_poll_step desk listed default_daemon) = inr tt
  /\ is_Some (devices scanned !! "/dev/input/event3")
  /\ post (watch_devices_poll_step desk listed scanned) = scanned.
Proof.
  intros listed scanned.
  assert (Hret : outcome (watch_devices_poll_step desk listed default_daemon) = inr tt)
    by (vm_compute; reflexivity).
  destruct (polling_scan_spec desk listed default_daemon) as (_ & _ & Hok).
  destruct (Hok Hret) as [Hall Hagain].
  split; [exact Hret|]. split; [|exact Hagain].
  apply (Hall "/dev/input/event3" usb_keyboard).
  - apply list_elem_of_further, list_elem_of_here.
  - vm_compute. reflexivity.
Defined.
